(** * TRM time-series analytics: range filter, statistics, moving average,
      extreme variations

    Shallow embedding of the analytics core of the TRM application:

    - [src/domain/models/trm.py]                 (records and [to_dict])
    - [src/domain/services/trm_service.py]       (TRMService)
    - [python_app/src/infrastructure/repositories/trm_repository.py]
    - [src/application/services/trm_application_service.py]
    - [trm_data_loader.py], [python_app/trm_app.py] (TRMDataLoader)

    Modelling conventions.

    - A calendar date is a record of year, month and day, ordered
      lexicographically.  A pandas [Timestamp] column built from such dates
      has day precision, so [strftime('%Y-%m-%d')], [pd.to_datetime] and
      [.date()] are inverse to each other and a timestamp is a [date].
    - Stored observation values are finite numbers.  The structural
      properties (which rows, in which order, which values are selected) are
      proved over exact rationals ([Q]); there the results of numeric
      operations live in [npfloat], which adds the IEEE special values
      [+inf], [-inf] and [NaN] that numpy produces instead of raising
      (division by zero, statistics of too few points).
    - The properties that depend on how the code rounds and compares are
      proved over binary64 numbers (module [Binary64], on the kernel's
      [PrimFloat.float]): the threshold test of the extreme variations and
      the bounds on the statistics.
    - A [DataFrame] with columns [fecha] and [trm] is a list of rows in index
      order.
    - A Python exception is the [Raise] case of [result]. *)

From Stdlib Require Import Floats.
From Stdlib Require Import Strings.String Strings.Ascii.
From Stdlib Require Import List ZArith QArith Qminmax Qabs Lia Lqa Bool.
From Stdlib Require Import Sorting.Sorted Sorting.Permutation.
Import ListNotations.

Local Open Scope Z_scope.

(** ** Calendar dates ([datetime.date], day-precision [pd.Timestamp]) *)

Record date : Type := mkDate { year : Z; month : Z; day : Z }.

(** [a <= b] on dates: lexicographic on (year, month, day). *)
Definition date_leb (a b : date) : bool :=
  (year a <? year b)
  || ((year a =? year b)
      && ((month a <? month b)
          || ((month a =? month b) && (day a <=? day b)))).

Definition date_le (a b : date) : Prop := date_leb a b = true.

Definition date_min (a b : date) : date := if date_leb a b then a else b.
Definition date_max (a b : date) : date := if date_leb a b then b else a.

(** ** Exceptions *)

Inductive exn : Type :=
| ValueError (msg : String.string).

Inductive result (A : Type) : Type :=
| Ok (a : A)
| Raise (e : exn).

Arguments Ok {A} a.
Arguments Raise {A} e.

Definition bind {A B : Type} (r : result A) (k : A -> result B) : result B :=
  match r with
  | Ok a => k a
  | Raise e => Raise e
  end.

Notation "x <- r ;; k" := (bind r (fun x => k))
  (at level 61, r at next level, right associativity).

Definition raises {A : Type} (r : result A) : Prop :=
  exists e, r = Raise e.

(** ** numpy floating-point values *)

Inductive npfloat : Type :=
| Fin (q : Q)
| PosInf
| NegInf
| NaN.

Definition isna (x : npfloat) : bool :=
  match x with NaN => true | _ => false end.

Definition Qis_zero (q : Q) : bool := Qeq_bool q 0.
Definition Qis_pos (q : Q) : bool := negb (Qle_bool q 0).

Definition fabs (x : npfloat) : npfloat :=
  match x with
  | Fin q => Fin (Qabs q)
  | PosInf | NegInf => PosInf
  | NaN => NaN
  end.

Definition fsub (x y : npfloat) : npfloat :=
  match x, y with
  | NaN, _ | _, NaN => NaN
  | Fin a, Fin b => Fin (a - b)
  | Fin _, PosInf => NegInf
  | Fin _, NegInf => PosInf
  | PosInf, PosInf => NaN
  | PosInf, _ => PosInf
  | NegInf, NegInf => NaN
  | NegInf, _ => NegInf
  end.

(** An infinity scaled by a finite factor: the sign follows the factor and
    [inf * 0] is [NaN]. *)
Definition scale_inf (positive : bool) (q : Q) : npfloat :=
  if Qis_zero q then NaN
  else if Bool.eqb positive (Qis_pos q) then PosInf else NegInf.

Definition fmul (x y : npfloat) : npfloat :=
  match x, y with
  | NaN, _ | _, NaN => NaN
  | Fin a, Fin b => Fin (a * b)
  | Fin a, PosInf => scale_inf true a
  | Fin a, NegInf => scale_inf false a
  | PosInf, Fin b => scale_inf true b
  | NegInf, Fin b => scale_inf false b
  | PosInf, PosInf | NegInf, NegInf => PosInf
  | PosInf, NegInf | NegInf, PosInf => NegInf
  end.

(** numpy true division: a zero divisor gives [NaN] for [0/0] and a signed
    infinity otherwise; no [ZeroDivisionError] is raised. *)
Definition fdiv (x y : npfloat) : npfloat :=
  match x, y with
  | NaN, _ | _, NaN => NaN
  | Fin a, Fin b =>
      if Qis_zero b then
        (if Qis_zero a then NaN else if Qis_pos a then PosInf else NegInf)
      else Fin (a / b)
  | Fin _, _ => Fin 0
  | PosInf, Fin b => if Qis_pos b || Qis_zero b then PosInf else NegInf
  | NegInf, Fin b => if Qis_pos b || Qis_zero b then NegInf else PosInf
  | _, _ => NaN
  end.

(** [x > y]; every comparison with [NaN] is false. *)
Definition fgtb (x y : npfloat) : bool :=
  match x, y with
  | NaN, _ | _, NaN => false
  | Fin a, Fin b => negb (Qle_bool a b)
  | PosInf, PosInf => false
  | PosInf, _ => true
  | NegInf, _ => false
  | Fin _, NegInf => true
  | Fin _, PosInf => false
  end.

(** [x <= y]; every comparison with [NaN] is false. *)
Definition fleb (x y : npfloat) : bool :=
  match x, y with
  | NaN, _ | _, NaN => false
  | Fin a, Fin b => Qle_bool a b
  | NegInf, _ => true
  | _, PosInf => true
  | _, _ => false
  end.

Definition fle (x y : npfloat) : Prop := fleb x y = true.

(** Numeric equality of results ([==] on floats): rationals are compared by
    value, [NaN] is only matched by [NaN] here. *)
Definition feq (x y : npfloat) : Prop :=
  match x, y with
  | Fin a, Fin b => a == b
  | PosInf, PosInf | NegInf, NegInf | NaN, NaN => True
  | _, _ => False
  end.

(** The standard deviation is the square root of the variance; [Q] has no
    square roots, so the result keeps the radicand. *)
Inductive stdval : Type :=
| StdNaN
| StdSqrt (variance : Q).

(** ** Domain models ([src/domain/models/trm.py]) *)

Record TRMData : Type := mkTRMData {
  fecha : date;
  valor : Q
}.

Record TRMStatistics : Type := mkTRMStatistics {
  min_value : npfloat;
  max_value : npfloat;
  avg_value : npfloat;
  median_value : npfloat;
  std_dev : stdval;
  count : Z;
  start_date : date;
  end_date : date;
  start_value : Q;
  end_value : Q;
  change : npfloat;
  change_pct : npfloat
}.

Record TRMVariation : Type := mkTRMVariation {
  var_fecha : date;
  var_valor : Q;
  variacion_pct : npfloat
}.

Record TRMMovingAverage : Type := mkTRMMovingAverage {
  ma_fecha : date;
  ma_valor : Q;
  promedio_movil : option npfloat;
  ma_window : Z
}.

(** ** Data frames: rows with the columns ['fecha'] and ['trm'] *)

Record Row : Type := mkRow {
  row_fecha : date;
  row_trm : Q
}.

Definition DataFrame : Type := list Row.

(** [TRMData.to_dict]: the dictionary [{'fecha': ..., 'trm': ...}] that
    becomes one row of the frame. *)
Definition to_dict (item : TRMData) : Row :=
  mkRow (fecha item) (valor item).

(** [pd.DataFrame([item.to_dict() for item in data])] followed by
    [df['fecha'] = pd.to_datetime(df['fecha'])]. *)
Definition frame_of (data : list TRMData) : DataFrame :=
  map to_dict data.

Definition row0 : Row := mkRow (mkDate 0 0 0) 0.

(** ** Sorting *)

Section InsertionSort.
Context {A : Type}.
Variable leb : A -> A -> bool.

Fixpoint insert (x : A) (l : list A) : list A :=
  match l with
  | [] => [x]
  | y :: l' => if leb x y then x :: l else y :: insert x l'
  end.

(** Rows with equal keys keep their relative order. *)
Fixpoint isort (l : list A) : list A :=
  match l with
  | [] => []
  | x :: l' => insert x (isort l')
  end.
End InsertionSort.

(** [df.sort_values('fecha')]: ascending by date.  Dates are unique within
    a series; for rows of equal date, whose order pandas leaves to the
    sorting algorithm, the model keeps the input order. *)
Definition sort_values (df : DataFrame) : DataFrame :=
  isort (fun a b => date_leb (row_fecha a) (row_fecha b)) df.

(** ** Column reductions ([Series.min], [max], [mean], [median], [std]) *)

Definition trm_column (df : DataFrame) : list Q := map row_trm df.
Definition fecha_column (df : DataFrame) : list date := map row_fecha df.

Definition series_min (vs : list Q) : npfloat :=
  match vs with
  | [] => NaN
  | v :: vs' => Fin (fold_left Qmin vs' v)
  end.

Definition series_max (vs : list Q) : npfloat :=
  match vs with
  | [] => NaN
  | v :: vs' => Fin (fold_left Qmax vs' v)
  end.

Definition Qsum (vs : list Q) : Q := fold_left Qplus vs 0%Q.

Definition Qlen (vs : list Q) : Q := inject_Z (Z.of_nat (length vs)).

Definition series_mean (vs : list Q) : npfloat :=
  match vs with
  | [] => NaN
  | _ => Fin (Qsum vs / Qlen vs)
  end.

(** Median: the middle element of the sorted values, or the mean of the two
    middle elements when the count is even. *)
Definition series_median (vs : list Q) : npfloat :=
  match vs with
  | [] => NaN
  | _ =>
      let s := isort Qle_bool vs in
      let n := length vs in
      let h := Nat.div n 2 in
      if Nat.even n
      then Fin ((nth (h - 1)%nat s 0%Q + nth h s 0%Q) / 2)
      else Fin (nth h s 0%Q)
  end.

(** Sample variance (ddof = 1). *)
Definition sample_variance (vs : list Q) : Q :=
  let m := (Qsum vs / Qlen vs)%Q in
  (Qsum (map (fun v => (v - m) * (v - m)) vs) / (Qlen vs - 1))%Q.

(** [Series.std()]: [NaN] when the count does not exceed ddof = 1. *)
Definition series_std (vs : list Q) : stdval :=
  if (length vs <=? 1)%nat then StdNaN
  else StdSqrt (sample_variance vs).

Definition dates_min (ds : list date) (d : date) : date := fold_left date_min ds d.
Definition dates_max (ds : list date) (d : date) : date := fold_left date_max ds d.

(** ** Rolling windows and percent change *)

(** The rows [lo, hi) of a column. *)
Definition slice {A : Type} (l : list A) (lo hi : nat) : list A :=
  firstn (hi - lo) (skipn lo l).

(** [Series.rolling(window=w).mean()] at row [i] for a validated window of
    [w] rows: the window ends at row [i] and reaches back [w] rows, clipped
    at the start of the column; [min_periods] defaults to [w], and the mean
    of fewer than [min_periods] (or of zero) observations is [NaN]. *)
Definition rolling_mean_at (vs : list Q) (w i : nat) : npfloat :=
  let obs := slice vs (i + 1 - w) (i + 1) in
  let nobs := length obs in
  if ((w <=? nobs) && (0 <? nobs))%nat
  then Fin (Qsum obs / Qlen obs)
  else NaN.

(** [Series.rolling(window=window).mean()]: a negative window is rejected
    with [ValueError]; window 0 is accepted. *)
Definition rolling_mean (vs : list Q) (window : Z) : result (list npfloat) :=
  if window <? 0
  then Raise (ValueError "window must be an integer 0 or greater"%string)
  else Ok (map (rolling_mean_at vs (Z.to_nat window)) (seq 0 (length vs))).

(** [Series.shift(1)]: every value moves one row down, the first row
    becomes [NaN]. *)
Definition shift (xs : list npfloat) : list npfloat :=
  firstn (length xs) (NaN :: xs).

(** [Series.pct_change()]: [data / data.shift(1) - 1]. *)
Definition pct_change (vs : list Q) : list npfloat :=
  let data := map Fin vs in
  map (fun '(x, prev) => fsub (fdiv x prev) (Fin 1)) (combine data (shift data)).

(** ** TRMService ([src/domain/services/trm_service.py]) *)

(** [TRMService.calculate_statistics] *)
Definition calculate_statistics (data : list TRMData) : option TRMStatistics :=
  match data with
  | [] => None
  | _ =>
      let df := sort_values (frame_of data) in
      let first_row := hd row0 df in          (* df.iloc[0]  *)
      let last_row := last df row0 in         (* df.iloc[-1] *)
      Some {|
        min_value := series_min (trm_column df);
        max_value := series_max (trm_column df);
        avg_value := series_mean (trm_column df);
        median_value := series_median (trm_column df);
        std_dev := series_std (trm_column df);
        count := Z.of_nat (length df);
        start_date := dates_min (fecha_column df) (row_fecha first_row);
        end_date := dates_max (fecha_column df) (row_fecha first_row);
        start_value := row_trm first_row;
        end_value := row_trm last_row;
        change := fsub (Fin (row_trm last_row)) (Fin (row_trm first_row));
        change_pct :=
          fmul (fsub (fdiv (Fin (row_trm last_row)) (Fin (row_trm first_row)))
                     (Fin 1))
               (Fin 100)
      |}
  end.

(** One turn of the loop that converts rows back to domain objects:
    [ma_value] is [None] where the rolling mean is [NaN]. *)
Definition append_moving_average (window : Z)
    (acc : list TRMMovingAverage) (row : Row * npfloat) : list TRMMovingAverage :=
  let ma_value := if isna (snd row) then None else Some (snd row) in
  acc ++ [mkTRMMovingAverage (row_fecha (fst row)) (row_trm (fst row))
                             ma_value window].

(** [TRMService.calculate_moving_average] *)
Definition calculate_moving_average (data : list TRMData) (window : Z)
  : result (list TRMMovingAverage) :=
  match data with
  | [] => Ok []
  | _ =>
      let df := sort_values (frame_of data) in
      ma <- rolling_mean (trm_column df) window ;;
      Ok (fold_left (append_moving_average window) (combine df ma) [])
  end.

Definition append_variation
    (acc : list TRMVariation) (row : Row * npfloat) : list TRMVariation :=
  if negb (isna (snd row))
  then acc ++ [mkTRMVariation (row_fecha (fst row)) (row_trm (fst row)) (snd row)]
  else acc.

(** [TRMService.find_extreme_variations] *)
Definition find_extreme_variations (data : list TRMData) (threshold_pct : npfloat)
  : list TRMVariation :=
  match data with
  | [] => []
  | _ =>
      let df := sort_values (frame_of data) in
      let var_pct :=
        map (fun p => fmul p (Fin 100)) (pct_change (trm_column df)) in
      let extreme_df :=
        filter (fun row => fgtb (fabs (snd row)) threshold_pct)
               (combine df var_pct) in
      fold_left append_variation extreme_df []
  end.

(** ** TRMRepository
       ([python_app/src/infrastructure/repositories/trm_repository.py]) *)

(** [Optional[date]] bounds: Python tests them with [if start_date:], and
    every [date] object is truthy. *)
Definition keep_from (start_date : option date) (df : DataFrame) : DataFrame :=
  match start_date with
  | Some d => filter (fun r => date_leb d (row_fecha r)) df
  | None => df
  end.

Definition keep_until (end_date : option date) (df : DataFrame) : DataFrame :=
  match end_date with
  | Some d => filter (fun r => date_leb (row_fecha r) d) df
  | None => df
  end.

Definition append_trm_data (acc : list TRMData) (row : Row) : list TRMData :=
  acc ++ [mkTRMData (row_fecha row) (row_trm row)].

(** [TRMRepository.get_by_date_range].  [data_df] is the frame the
    repository holds once the lazy load has been attempted; [None] when
    loading failed. *)
Definition get_by_date_range (data_df : option DataFrame)
    (start_date end_date : option date) : list TRMData :=
  match data_df with
  | None => []
  | Some df =>
      let filtered_df := keep_until end_date (keep_from start_date df) in
      fold_left append_trm_data filtered_df []
  end.

(** The range filter of the specification, on a series: the filtered frame
    is built from the series as [TRMRepository.save] builds it. *)
Definition range_filter (series : list TRMData)
    (start_date end_date : option date) : list TRMData :=
  get_by_date_range (Some (frame_of series)) start_date end_date.

(** ** Date parsing *)

Definition digit_of (c : ascii) : option Z :=
  let n := nat_of_ascii c in
  if ((48 <=? n) && (n <=? 57))%nat then Some (Z.of_nat (n - 48)) else None.

Fixpoint digits_value (cs : list ascii) (acc : Z) : option Z :=
  match cs with
  | [] => Some acc
  | c :: cs' =>
      match digit_of c with
      | Some d => digits_value cs' (10 * acc + d)
      | None => None
      end
  end.

Definition is_leap (y : Z) : bool :=
  ((y mod 4 =? 0) && negb (y mod 100 =? 0)) || (y mod 400 =? 0).

Definition days_in_month (y m : Z) : Z :=
  if m =? 2 then (if is_leap y then 29 else 28)
  else if (m =? 4) || (m =? 6) || (m =? 9) || (m =? 11) then 30
  else 31.

Definition dash : ascii := "-"%char.

(** [date.fromisoformat] on the format [YYYY-MM-DD]; anything else raises
    [ValueError]. *)
Definition fromisoformat (s : string) : result date :=
  match list_ascii_of_string s with
  | [y1; y2; y3; y4; s1; m1; m2; s2; d1; d2] =>
      match digits_value [y1; y2; y3; y4] 0,
            digits_value [m1; m2] 0,
            digits_value [d1; d2] 0 with
      | Some y, Some m, Some d =>
          if Ascii.eqb s1 dash && Ascii.eqb s2 dash
             && (1 <=? y) && (1 <=? m) && (m <=? 12)
             && (1 <=? d) && (d <=? days_in_month y m)
          then Ok (mkDate y m d)
          else Raise (ValueError "Invalid isoformat string"%string)
      | _, _, _ => Raise (ValueError "Invalid isoformat string"%string)
      end
  | _ => Raise (ValueError "Invalid isoformat string"%string)
  end.

(** Python truthiness of an [Optional[str]] argument: [None] and the empty
    string are false. *)
Definition given (arg : option string) : option string :=
  match arg with
  | Some EmptyString => None
  | _ => arg
  end.

(** [date.fromisoformat(arg) if arg else None] *)
Definition parse_bound (arg : option string) : result (option date) :=
  match given arg with
  | Some s => d <- fromisoformat s ;; Ok (Some d)
  | None => Ok None
  end.

(** ** TRMApplicationService
       ([src/application/services/trm_application_service.py]) *)

(** [TRMApplicationService.get_trm_data].  [repository] stands for the
    injected [self.repository.get_by_date_range]; the repository module of
    this layer is not among the sources, its sibling is [get_by_date_range]
    above. *)
Definition get_trm_data
    (repository : option date -> option date -> list TRMData)
    (start_date end_date : option string) : result (list Row) :=
  start_date_obj <- parse_bound start_date ;;
  end_date_obj <- parse_bound end_date ;;
  let data := repository start_date_obj end_date_obj in
  Ok (map to_dict data).

(** ** TRMDataLoader ([trm_data_loader.py], [python_app/trm_app.py]) *)

Section DataLoader.
(** [pd.to_datetime] on a string: a timestamp, or an exception when the
    string cannot be parsed. *)
Variable to_datetime : string -> result date.

(** [get_data_range] of [trm_data_loader.py]: a parse error propagates. *)
Definition loader_get_data_range (self_data : option DataFrame)
    (start_date end_date : option string) : result (option DataFrame) :=
  match self_data with
  | None => Ok None
  | Some data =>
      let filtered_data := data in
      filtered_data <-
        match given start_date with
        | Some s => d <- to_datetime s ;; Ok (keep_from (Some d) filtered_data)
        | None => Ok filtered_data
        end ;;
      filtered_data <-
        match given end_date with
        | Some s => d <- to_datetime s ;; Ok (keep_until (Some d) filtered_data)
        | None => Ok filtered_data
        end ;;
      Ok (Some filtered_data)
  end.

(** [TRMDataLoader.get_data_range] of [python_app/trm_app.py]: each bound
    is parsed and applied inside [try: ... except: pass]. *)
Definition get_data_range (self_data : option DataFrame)
    (start_date end_date : option string) : option DataFrame :=
  match self_data with
  | None => None
  | Some data =>
      let filtered_data := data in
      let filtered_data :=
        match given start_date with
        | Some s =>
            match to_datetime s with
            | Ok d => keep_from (Some d) filtered_data
            | Raise _ => filtered_data
            end
        | None => filtered_data
        end in
      let filtered_data :=
        match given end_date with
        | Some s =>
            match to_datetime s with
            | Ok d => keep_until (Some d) filtered_data
            | Raise _ => filtered_data
            end
        | None => filtered_data
        end in
      Some filtered_data
  end.
End DataLoader.

(** ** Specification-level definitions

    The definitions below follow the wording of the specification; the
    theorems compare them with the embedded code above. *)

(** A date lies within optional inclusive bounds. *)
Definition in_range (a b : option date) (d : date) : bool :=
  match a with Some lo => date_leb lo d | None => true end
  && match b with Some hi => date_leb d hi | None => true end.



(** Day-over-day percent change at row [i >= 1]:
    [(value[i] / value[i-1] - 1) * 100]. *)
Definition percent_change_at (vs : list Q) (i : nat) : npfloat :=
  fmul (fsub (fdiv (Fin (nth i vs 0%Q)) (Fin (nth (i - 1) vs 0%Q))) (Fin 1))
       (Fin 100).

(** The observation carried by a moving-average point. *)
Definition ma_observation (p : TRMMovingAverage) : TRMData :=
  mkTRMData (ma_fecha p) (ma_valor p).

Definition of_row (r : Row) : TRMData := mkTRMData (row_fecha r) (row_trm r).

(** Rows in ascending date order. *)
Definition row_le (a b : Row) : Prop := date_le (row_fecha a) (row_fecha b).

(** The moving-average point built from row [i] of a sorted frame. *)
Definition ma_point (df : DataFrame) (window : Z) (i : nat) : TRMMovingAverage :=
  let m := rolling_mean_at (trm_column df) (Z.to_nat window) i in
  mkTRMMovingAverage (row_fecha (nth i df row0)) (row_trm (nth i df row0))
                     (if isna m then None else Some m) window.

(** The variation record built from row [i >= 1] of a sorted frame. *)
Definition variation_at (df : DataFrame) (i : nat) : TRMVariation :=
  mkTRMVariation (row_fecha (nth i df row0)) (row_trm (nth i df row0))
                 (percent_change_at (trm_column df) i).

(** [|p| > threshold], strictly. *)
Definition exceeds (threshold_pct p : npfloat) : bool :=
  fgtb (fabs p) threshold_pct.


(** The series of the worked examples. *)
Definition example_series : list TRMData :=
  [mkTRMData (mkDate 2024 1 1) 100; mkTRMData (mkDate 2024 1 2) 110;
   mkTRMData (mkDate 2024 1 3) 99].

(** ** TRMRepository: the remaining operations
       ([python_app/src/infrastructure/repositories/trm_repository.py]) *)

Definition date_eqb (a b : date) : bool :=
  (year a =? year b) && (month a =? month b) && (day a =? day b).

(** [DataFrame.drop_duplicates(subset=['fecha'])]: of the rows that share a
    date the first one is kept.  [seen] holds the dates met so far. *)
Fixpoint drop_duplicates_from (seen : list date) (df : DataFrame) : DataFrame :=
  match df with
  | [] => []
  | r :: df' =>
      if existsb (date_eqb (row_fecha r)) seen
      then drop_duplicates_from seen df'
      else r :: drop_duplicates_from (row_fecha r :: seen) df'
  end.

Definition drop_duplicates (df : DataFrame) : DataFrame :=
  drop_duplicates_from [] df.

(** [TRMRepository.get_all]; [data_df] as in [get_by_date_range]. *)
Definition get_all (data_df : option DataFrame) : list TRMData :=
  match data_df with
  | None => []
  | Some df => fold_left append_trm_data df []
  end.

(** [TRMRepository.get_date_range].  [None] as the frame means that loading
    failed, and the pair is [(date.today(), date.today())]; in the result
    [None] is pandas' [NaT], the minimum and maximum of an empty column. *)
Definition get_date_range (today : date) (data_df : option DataFrame)
  : option date * option date :=
  match data_df with
  | None => (Some today, Some today)
  | Some [] => (None, None)
  | Some (r :: df) =>
      (Some (dates_min (fecha_column df) (row_fecha r)),
       Some (dates_max (fecha_column df) (row_fecha r)))
  end.

(** [TRMRepository.save]: the result and the frame held afterwards.
    [to_csv_ok] tells whether writing the file succeeded.  An empty [data]
    gives a frame without columns, so [new_df['fecha']] raises [KeyError]
    inside the [try] and nothing is changed. *)
Definition save (to_csv_ok : bool) (data_df : option DataFrame)
    (data : list TRMData) : bool * option DataFrame :=
  match data with
  | [] => (false, data_df)
  | _ =>
      let new_df := frame_of data in
      let combined_df :=
        match data_df with
        | Some df => sort_values (drop_duplicates (df ++ new_df))
        | None => new_df
        end in
      (to_csv_ok, Some combined_df)
  end.

(** ** Dates as text *)

Definition digit_char (d : Z) : ascii := ascii_of_nat (48 + Z.to_nat d).

(** [date.strftime('%Y-%m-%d')] for years of four digits. *)
Definition strftime (d : date) : string :=
  string_of_list_ascii
    [digit_char (year d / 1000 mod 10); digit_char (year d / 100 mod 10);
     digit_char (year d / 10 mod 10); digit_char (year d mod 10);
     dash;
     digit_char (month d / 10 mod 10); digit_char (month d mod 10);
     dash;
     digit_char (day d / 10 mod 10); digit_char (day d mod 10)].

(** A calendar date that [datetime.date] can hold, with a four-digit year. *)
Definition valid_date (d : date) : Prop :=
  1000 <= year d <= 9999
  /\ 1 <= month d <= 12
  /\ 1 <= day d <= days_in_month (year d) (month d).

(** The dictionary of [TRMData.to_dict] and of the records passed to
    [update_data]: ['fecha'] is a string or a [date] object. *)
Record TRMDict : Type := mkTRMDict {
  dict_fecha : string + date;
  dict_trm : Q
}.

(** [TRMData.to_dict], with the date as the text it is rendered to. *)
Definition TRMData_to_dict (item : TRMData) : TRMDict :=
  mkTRMDict (inl (strftime (fecha item))) (valor item).

(** [TRMApplicationService.update_data]
    ([src/application/services/trm_application_service.py]): the list
    handed to [repository.save]; an unparseable date string raises. *)
Fixpoint update_data_items (new_data : list TRMDict) : result (list TRMData) :=
  match new_data with
  | [] => Ok []
  | item :: rest =>
      fecha <- match dict_fecha item with
               | inl s => fromisoformat s
               | inr d => Ok d
               end ;;
      trm_data <- update_data_items rest ;;
      Ok (mkTRMData fecha (dict_trm item) :: trm_data)
  end.

(** ** The application service of [python_app]
       ([python_app/src/application/services/trm_application_service.py]) *)

Module PythonApp.
Section Service.
(** [pd.to_datetime(s).date()] *)
Variable to_datetime : string -> result date.
Variable repository : option date -> option date -> list TRMData.

(** [pd.to_datetime(arg).date() if arg else None] *)
Definition fallback_bound (arg : option string) : result (option date) :=
  match given arg with
  | Some s => d <- to_datetime s ;; Ok (Some d)
  | None => Ok None
  end.

(** The bounds computed by the nested [try] blocks: [date.fromisoformat]
    for both, on [ValueError] [pd.to_datetime] for both, and [None] for
    both when that fails as well. *)
Definition parse_bounds (start_date end_date : option string)
  : option date * option date :=
  match (s <- parse_bound start_date ;;
         e <- parse_bound end_date ;; Ok (s, e)) with
  | Ok bounds => bounds
  | Raise _ =>
      match (s <- fallback_bound start_date ;;
             e <- fallback_bound end_date ;; Ok (s, e)) with
      | Ok bounds => bounds
      | Raise _ => (None, None)
      end
  end.

(** [TRMApplicationService.get_trm_data] *)
Definition get_trm_data (start_date end_date : option string) : list Row :=
  let bounds := parse_bounds start_date end_date in
  let data := repository (fst bounds) (snd bounds) in
  map to_dict data.

(** [TRMApplicationService.update_data]: the list handed to
    [repository.save]; a record whose date cannot be parsed by either
    parser is skipped. *)
Fixpoint update_data_items (new_data : list TRMDict) : list TRMData :=
  match new_data with
  | [] => []
  | item :: rest =>
      let parsed :=
        match dict_fecha item with
        | inl s =>
            match fromisoformat s with
            | Ok d => Some d
            | Raise _ =>
                match to_datetime s with
                | Ok d => Some d
                | Raise _ => None
                end
            end
        | inr d => Some d
        end in
      match parsed with
      | Some fecha => mkTRMData fecha (dict_trm item) :: update_data_items rest
      | None => update_data_items rest
      end
  end.
End Service.
End PythonApp.

(** ** Plot annotations ([TRMService.generate_plot]) *)

Section FirstBest.
(** [better_eq a b]: [a] is at least as good as [b] ([<=] for the minimum,
    [>=] for the maximum). *)
Variable better_eq : Q -> Q -> bool.

(** Position of the first best value: [best] is the position found so
    far, with value [best_v]; [i] is the position of the head of [vs]. *)
Fixpoint first_best_from (vs : list Q) (i best : nat) (best_v : Q) : nat :=
  match vs with
  | [] => best
  | v :: vs' =>
      if better_eq best_v v
      then first_best_from vs' (S i) best best_v
      else first_best_from vs' (S i) i v
  end.

Definition first_best (vs : list Q) : nat :=
  match vs with
  | [] => O
  | v :: vs' => first_best_from vs' 1 O v
  end.
End FirstBest.

(** [Series.idxmin()] and [Series.idxmax()]: the first occurrence of the
    minimum and of the maximum, as a position in the frame. *)
Definition idxmin (vs : list Q) : nat := first_best Qle_bool vs.
Definition idxmax (vs : list Q) : nat := first_best (fun a b => Qle_bool b a) vs.

(** What the figure shows: the plotted line and the two annotated points. *)
Record Figure : Type := mkFigure {
  line : DataFrame;
  min_annotation : Row;
  max_annotation : Row
}.

(** [TRMService.generate_plot] *)
Definition generate_plot (data : list TRMData) : option Figure :=
  match data with
  | [] => None
  | _ =>
      let df := sort_values (frame_of data) in
      let min_idx := idxmin (trm_column df) in
      let max_idx := idxmax (trm_column df) in
      Some (mkFigure df (nth min_idx df row0) (nth max_idx df row0))
  end.

(** ** TRMDataLoader: statistics, moving average and variations
       ([trm_data_loader.py]) *)

(** The dictionary of [TRMStatistics.to_dict] and of
    [TRMDataLoader.get_statistics]: the same keys, dates as text. *)
Record StatisticsDict : Type := mkStatisticsDict {
  dict_min : npfloat;
  dict_max : npfloat;
  dict_avg : npfloat;
  dict_median : npfloat;
  dict_std : stdval;
  dict_count : Z;
  dict_start_date : string;
  dict_end_date : string;
  dict_start_value : Q;
  dict_end_value : Q;
  dict_change : npfloat;
  dict_change_pct : npfloat
}.

(** [TRMStatistics.to_dict] *)
Definition TRMStatistics_to_dict (st : TRMStatistics) : StatisticsDict :=
  {| dict_min := min_value st;
     dict_max := max_value st;
     dict_avg := avg_value st;
     dict_median := median_value st;
     dict_std := std_dev st;
     dict_count := count st;
     dict_start_date := strftime (start_date st);
     dict_end_date := strftime (end_date st);
     dict_start_value := start_value st;
     dict_end_value := end_value st;
     dict_change := change st;
     dict_change_pct := change_pct st |}.

Section DataLoaderAnalytics.
Variable to_datetime : string -> result date.

(** [TRMDataLoader.get_statistics]: computed on the filtered frame as it
    is, without sorting it again. *)
Definition loader_get_statistics (self_data : option DataFrame)
    (start_date end_date : option string) : result (option StatisticsDict) :=
  filtered_data <- loader_get_data_range to_datetime self_data start_date end_date ;;
  match filtered_data with
  | None | Some [] => Ok None
  | Some df =>
      let first_row := hd row0 df in
      let last_row := last df row0 in
      Ok (Some {|
        dict_min := series_min (trm_column df);
        dict_max := series_max (trm_column df);
        dict_avg := series_mean (trm_column df);
        dict_median := series_median (trm_column df);
        dict_std := series_std (trm_column df);
        dict_count := Z.of_nat (length df);
        dict_start_date :=
          strftime (dates_min (fecha_column df) (row_fecha first_row));
        dict_end_date :=
          strftime (dates_max (fecha_column df) (row_fecha first_row));
        dict_start_value := row_trm first_row;
        dict_end_value := row_trm last_row;
        dict_change := fsub (Fin (row_trm last_row)) (Fin (row_trm first_row));
        dict_change_pct :=
          fmul (fsub (fdiv (Fin (row_trm last_row)) (Fin (row_trm first_row)))
                     (Fin 1))
               (Fin 100)
      |})
  end.

(** [TRMDataLoader.calculate_moving_average]: the filtered frame with the
    column [ma_<window>]; [NaN] stays in the column. *)
Definition loader_calculate_moving_average (window : Z)
    (self_data : option DataFrame) (start_date end_date : option string)
  : result (option (list (Row * npfloat))) :=
  filtered_data <- loader_get_data_range to_datetime self_data start_date end_date ;;
  match filtered_data with
  | None | Some [] => Ok None
  | Some df =>
      ma <- rolling_mean (trm_column df) window ;;
      Ok (Some (combine df ma))
  end.

(** [TRMDataLoader.find_extreme_variations]: the rows of the filtered
    frame, with the column [var_pct], whose change exceeds the threshold. *)
Definition loader_find_extreme_variations (threshold_pct : npfloat)
    (self_data : option DataFrame) (start_date end_date : option string)
  : result (option (list (Row * npfloat))) :=
  filtered_data <- loader_get_data_range to_datetime self_data start_date end_date ;;
  match filtered_data with
  | None | Some [] => Ok None
  | Some df =>
      let var_pct :=
        map (fun p => fmul p (Fin 100)) (pct_change (trm_column df)) in
      Ok (Some (filter (fun row => fgtb (fabs (snd row)) threshold_pct)
                       (combine df var_pct)))
  end.
End DataLoaderAnalytics.

(** ** The analytics in binary64

    [TRMData.valor] is a Python [float] and the [trm] column a numpy
    [float64] column: every arithmetic step of the service rounds to
    binary64.  This module repeats the service over the kernel's binary64
    numbers ([PrimFloat.float]), for the properties that depend on how the
    code rounds and compares.  Dates, sorting and the row loops are those of
    the exact model.  Observation values are numbers: a stored [NaN] is
    outside the model (pandas skips it in reductions and, depending on the
    version, fills it forward before a percent change), and the properties
    below assume there is none. *)

Module Binary64.

Record TRMData : Type := mkTRMData {
  fecha : date;
  valor : float
}.

Record TRMStatistics : Type := mkTRMStatistics {
  min_value : float;
  max_value : float;
  avg_value : float;
  median_value : float;
  std_dev : float;
  count : Z;
  start_date : date;
  end_date : date;
  start_value : float;
  end_value : float;
  change : float;
  change_pct : float
}.

Record TRMVariation : Type := mkTRMVariation {
  var_fecha : date;
  var_valor : float;
  variacion_pct : float
}.

Record Row : Type := mkRow {
  row_fecha : date;
  row_trm : float
}.

Definition DataFrame : Type := list Row.

Definition to_dict (item : TRMData) : Row :=
  mkRow (fecha item) (valor item).

Definition frame_of (data : list TRMData) : DataFrame :=
  map to_dict data.

Definition row0 : Row := mkRow (mkDate 0 0 0) 0%float.

Definition sort_values (df : DataFrame) : DataFrame :=
  isort (fun a b => date_leb (row_fecha a) (row_fecha b)) df.

Definition trm_column (df : DataFrame) : list float := map row_trm df.
Definition fecha_column (df : DataFrame) : list date := map row_fecha df.

(** numpy's [minimum] and [maximum] of two numbers: the first operand
    unless the second is strictly better. *)
Definition fmin (m x : float) : float :=
  if (m <=? x)%float || is_nan m then m else x.

Definition fmax (m x : float) : float :=
  if (x <=? m)%float || is_nan m then m else x.

Definition series_min (vs : list float) : float :=
  match vs with
  | [] => nan
  | v :: vs' => fold_left fmin vs' v
  end.

Definition series_max (vs : list float) : float :=
  match vs with
  | [] => nan
  | v :: vs' => fold_left fmax vs' v
  end.

(** The sum of a column, added in index order.  numpy groups the additions
    of a column in its own way, which can change the last bits of a sum;
    the properties below either do not involve the sum or evaluate it on
    columns of equal values, where every grouping gives the same result. *)
Definition series_sum (vs : list float) : float :=
  fold_left PrimFloat.add vs 0%float.

(** The row count as a binary64 number (exact below 2^53). *)
Definition float_of_nat (n : nat) : float :=
  of_uint63 (Uint63.of_Z (Z.of_nat n)).

Definition series_mean (vs : list float) : float :=
  match vs with
  | [] => nan
  | _ => (series_sum vs / float_of_nat (length vs))%float
  end.

(** Median: the middle element of the sorted values, or the binary64 mean
    of the two middle elements when the count is even. *)
Definition series_median (vs : list float) : float :=
  match vs with
  | [] => nan
  | _ =>
      let s := isort PrimFloat.leb vs in
      let n := length vs in
      let h := Nat.div n 2 in
      if Nat.even n
      then ((nth (h - 1)%nat s 0 + nth h s 0) / 2)%float
      else nth h s 0%float
  end.

(** [Series.std()] (ddof = 1): [NaN] for fewer than two values. *)
Definition series_std (vs : list float) : float :=
  if (length vs <=? 1)%nat then nan
  else
    let avg := (series_sum vs / float_of_nat (length vs))%float in
    let sqr := map (fun v => ((avg - v) * (avg - v))%float) vs in
    sqrt (series_sum sqr / float_of_nat (length vs - 1))%float.

(** [TRMService.calculate_statistics] *)
Definition calculate_statistics (data : list TRMData) : option TRMStatistics :=
  match data with
  | [] => None
  | _ =>
      let df := sort_values (frame_of data) in
      let first_row := hd row0 df in
      let last_row := last df row0 in
      Some {|
        min_value := series_min (trm_column df);
        max_value := series_max (trm_column df);
        avg_value := series_mean (trm_column df);
        median_value := series_median (trm_column df);
        std_dev := series_std (trm_column df);
        count := Z.of_nat (length df);
        start_date := dates_min (fecha_column df) (row_fecha first_row);
        end_date := dates_max (fecha_column df) (row_fecha first_row);
        start_value := row_trm first_row;
        end_value := row_trm last_row;
        change := (row_trm last_row - row_trm first_row)%float;
        change_pct :=
          ((row_trm last_row / row_trm first_row - 1) * 100)%float
      |}
  end.

(** [Series.shift(1)] and [Series.pct_change()]: [data / data.shift(1) - 1]. *)
Definition shift (xs : list float) : list float :=
  firstn (length xs) (nan :: xs).

Definition pct_change (vs : list float) : list float :=
  map (fun '(x, prev) => (x / prev - 1)%float) (combine vs (shift vs)).

Definition append_variation
    (acc : list TRMVariation) (row : Row * float) : list TRMVariation :=
  if negb (is_nan (snd row))
  then acc ++ [mkTRMVariation (row_fecha (fst row)) (row_trm (fst row)) (snd row)]
  else acc.

(** [TRMService.find_extreme_variations]: [abs(df['var_pct']) > threshold_pct]
    is the binary64 comparison [threshold_pct < |var_pct|]. *)
Definition find_extreme_variations (data : list TRMData) (threshold_pct : float)
  : list TRMVariation :=
  match data with
  | [] => []
  | _ =>
      let df := sort_values (frame_of data) in
      let var_pct := map (fun p => (p * 100)%float) (pct_change (trm_column df)) in
      let extreme_df :=
        filter (fun row => (threshold_pct <? abs (snd row))%float)
               (combine df var_pct) in
      fold_left append_variation extreme_df []
  end.

(** Specification-level definitions. *)

Definition row_le (a b : Row) : Prop := date_le (row_fecha a) (row_fecha b).

(** Day-over-day percent change at index [i >= 1], each step rounded. *)
Definition percent_change_at (vs : list float) (i : nat) : float :=
  ((nth i vs 0 / nth (i - 1) vs 0 - 1) * 100)%float.

Definition variation_at (df : DataFrame) (i : nat) : TRMVariation :=
  mkTRMVariation (row_fecha (nth i df row0)) (row_trm (nth i df row0))
                 (percent_change_at (trm_column df) i).

Definition obs (y m d : Z) (v : float) : TRMData := mkTRMData (mkDate y m d) v.

(** The binary64 number nearest to 0.1. *)
Definition tenth : float := 0x1.999999999999ap-4%float.

End Binary64.

(** * Properties *)

(** ** Dates *)

Lemma date_leb_total (a b : date) : date_leb a b = true \/ date_leb b a = true.
Proof.
  unfold date_leb.
  destruct (Z.ltb_spec (year a) (year b)), (Z.ltb_spec (year b) (year a)),
    (Z.eqb_spec (year a) (year b)), (Z.eqb_spec (year b) (year a)),
    (Z.ltb_spec (month a) (month b)), (Z.ltb_spec (month b) (month a)),
    (Z.eqb_spec (month a) (month b)), (Z.eqb_spec (month b) (month a)),
    (Z.leb_spec (day a) (day b)), (Z.leb_spec (day b) (day a));
    simpl; auto; lia.
Qed.

Lemma date_leb_trans (a b c : date) :
  date_leb a b = true -> date_leb b c = true -> date_leb a c = true.
Proof.
  unfold date_leb.
  destruct (Z.ltb_spec (year a) (year b)), (Z.ltb_spec (year b) (year c)),
    (Z.ltb_spec (year a) (year c)),
    (Z.eqb_spec (year a) (year b)), (Z.eqb_spec (year b) (year c)),
    (Z.eqb_spec (year a) (year c)); simpl; try lia; auto;
  destruct (Z.ltb_spec (month a) (month b)), (Z.ltb_spec (month b) (month c)),
    (Z.ltb_spec (month a) (month c)),
    (Z.eqb_spec (month a) (month b)), (Z.eqb_spec (month b) (month c)),
    (Z.eqb_spec (month a) (month c)); simpl; try lia; auto;
  destruct (Z.leb_spec (day a) (day b)), (Z.leb_spec (day b) (day c)),
    (Z.leb_spec (day a) (day c)); simpl; try lia; auto.
Qed.

Lemma date_leb_refl (a : date) : date_leb a a = true.
Proof. destruct (date_leb_total a a); assumption. Qed.

(** ** Insertion sort *)

Section InsertionSortFacts.
Context {A : Type}.
Variable leb : A -> A -> bool.
Hypothesis leb_total : forall x y, leb x y = true \/ leb y x = true.
Hypothesis leb_trans :
  forall x y z, leb x y = true -> leb y z = true -> leb x z = true.

Let le (x y : A) : Prop := leb x y = true.

Lemma insert_perm (x : A) (l : list A) : Permutation (x :: l) (insert leb x l).
Proof.
  induction l as [| y l IH]; simpl.
  - apply Permutation_refl.
  - destruct (leb x y).
    + apply Permutation_refl.
    + eapply perm_trans; [apply perm_swap | apply perm_skip, IH].
Qed.

Lemma isort_perm (l : list A) : Permutation l (isort leb l).
Proof.
  induction l as [| x l IH]; simpl.
  - apply perm_nil.
  - eapply perm_trans; [apply perm_skip, IH | apply insert_perm].
Qed.

Lemma isort_length (l : list A) : length (isort leb l) = length l.
Proof. symmetry. apply Permutation_length, isort_perm. Qed.

Lemma insert_sorted (x : A) (l : list A) :
  StronglySorted le l -> StronglySorted le (insert leb x l).
Proof.
  induction 1 as [| y l Hs IH Hy]; simpl.
  - constructor; constructor.
  - destruct (leb x y) eqn:E.
    + constructor; [constructor; assumption |].
      constructor; [exact E |].
      eapply Forall_impl; [| exact Hy].
      intros z Hz. exact (leb_trans _ _ _ E Hz).
    + constructor; [exact IH |].
      assert (Hyx : le y x) by (destruct (leb_total x y); congruence).
      eapply Permutation_Forall; [apply insert_perm |].
      constructor; assumption.
Qed.

Lemma isort_sorted (l : list A) : StronglySorted le (isort leb l).
Proof.
  induction l as [| x l IH]; simpl.
  - constructor.
  - apply insert_sorted, IH.
Qed.

Lemma isort_nonempty (l : list A) : l <> [] -> isort leb l <> [].
Proof.
  intros Hl Hs. apply Hl, length_zero_iff_nil.
  rewrite <- isort_length, Hs. reflexivity.
Qed.
End InsertionSortFacts.

Lemma sort_values_perm (df : DataFrame) : Permutation df (sort_values df).
Proof. apply isort_perm. Qed.

Lemma sort_values_length (df : DataFrame) : length (sort_values df) = length df.
Proof. apply isort_length. Qed.

Lemma sort_values_sorted (df : DataFrame) : StronglySorted row_le (sort_values df).
Proof.
  apply isort_sorted.
  - intros x y. apply date_leb_total.
  - intros x y z. apply date_leb_trans.
Qed.

Lemma frame_of_nonempty (data : list TRMData) :
  data <> [] -> sort_values (frame_of data) <> [].
Proof.
  intros H. apply isort_nonempty. destruct data; [congruence | discriminate].
Qed.

(** ** Loops that append one element per row *)

Lemma fold_left_append {A B : Type} (f : A -> B) (l : list A) (acc : list B) :
  fold_left (fun acc x => acc ++ [f x]) l acc = acc ++ map f l.
Proof.
  revert acc. induction l as [| x l IH]; intros acc; simpl.
  - now rewrite app_nil_r.
  - rewrite IH, <- app_assoc. reflexivity.
Qed.

Lemma fold_left_append_if {A B : Type} (p : A -> bool) (f : A -> B)
    (l : list A) (acc : list B) :
  fold_left (fun acc x => if p x then acc ++ [f x] else acc) l acc
  = acc ++ map f (filter p l).
Proof.
  revert acc. induction l as [| x l IH]; intros acc; simpl.
  - now rewrite app_nil_r.
  - rewrite IH. destruct (p x); simpl; [rewrite <- app_assoc |]; reflexivity.
Qed.

Lemma filter_map_comm {A B : Type} (p : B -> bool) (f : A -> B) (l : list A) :
  filter p (map f l) = map f (filter (fun x => p (f x)) l).
Proof.
  induction l as [| x l IH]; simpl; [reflexivity |].
  destruct (p (f x)); simpl; now rewrite IH.
Qed.

Lemma filter_andb {A : Type} (p q : A -> bool) (l : list A) :
  filter q (filter p l) = filter (fun x => p x && q x) l.
Proof.
  induction l as [| x l IH]; simpl; [reflexivity |].
  destruct (p x); simpl; [destruct (q x) |]; now rewrite IH.
Qed.

Lemma filter_idempotent {A : Type} (p : A -> bool) (l : list A) :
  filter p (filter p l) = filter p l.
Proof.
  induction l as [| x l IH]; simpl; [reflexivity |].
  destruct (p x) eqn:E; simpl; [rewrite E |]; now rewrite IH.
Qed.

Lemma of_row_to_dict (l : list TRMData) : map of_row (map to_dict l) = l.
Proof.
  induction l as [| [f v] l IH]; simpl; [reflexivity |].
  now rewrite IH.
Qed.

(** ** Range filter *)

Lemma keep_bounds_filter (a b : option date) (df : DataFrame) :
  keep_until b (keep_from a df) = filter (fun r => in_range a b (row_fecha r)) df.
Proof.
  unfold in_range. destruct a as [lo |], b as [hi |]; simpl.
  - apply filter_andb.
  - apply filter_ext. intros r. now rewrite andb_true_r.
  - reflexivity.
  - symmetry. induction df as [| r df IH]; simpl; [| rewrite IH]; reflexivity.
Qed.

Lemma range_filter_spec (S : list TRMData) (a b : option date) :
  range_filter S a b = filter (fun o => in_range a b (fecha o)) S.
Proof.
  unfold range_filter, get_by_date_range, append_trm_data.
  rewrite (fold_left_append of_row), keep_bounds_filter. simpl.
  unfold frame_of. rewrite filter_map_comm, of_row_to_dict. reflexivity.
Qed.

(** C8. The range filter keeps exactly the observations whose date lies
    within the given bounds (date >= a if a is given, date <= b if b is
    given), in their original order, and filtering an already filtered
    series with the same bounds changes nothing. *)
Theorem range_filter_idempotent (S : list TRMData) (a b : option date) :
  range_filter S a b = filter (fun o => in_range a b (fecha o)) S
  /\ range_filter (range_filter S a b) a b = range_filter S a b.
Proof.
  split; [apply range_filter_spec |].
  rewrite !range_filter_spec. apply filter_idempotent.
Qed.

(** ** Empty input *)

(** C4. On the empty series statistics are absent ([None]), the moving
    average is the empty list and the extreme variations are the empty
    list; none of the three raises, whatever the window and threshold. *)
Theorem empty_series_is_not_an_error (window : Z) (threshold_pct : npfloat) :
  calculate_statistics [] = None
  /\ calculate_moving_average [] window = Ok []
  /\ find_extreme_variations [] threshold_pct = [].
Proof. repeat split. Qed.

(** ** Sums and windows *)




Lemma slice_length {A : Type} (l : list A) (lo hi : nat) :
  length (slice l lo hi) = Nat.min (hi - lo) (length l - lo).
Proof. unfold slice. now rewrite length_firstn, length_skipn. Qed.





Lemma rolling_mean_at_zero (vs : list Q) (i : nat) :
  rolling_mean_at vs 0 i = NaN.
Proof.
  unfold rolling_mean_at.
  assert (Hlen : length (slice vs (i + 1 - 0) (i + 1)) = 0%nat)
    by (rewrite slice_length; lia).
  rewrite Hlen. reflexivity.
Qed.

(** ** Moving average *)

Lemma combine_map_seq {A B : Type} (l : list A) (g : nat -> B) (d : A) (k : nat) :
  combine l (map g (seq k (length l)))
  = map (fun i => (nth (i - k) l d, g i)) (seq k (length l)).
Proof.
  revert k. induction l as [| x l IH]; intros k; simpl; [reflexivity |].
  rewrite Nat.sub_diag. f_equal.
  rewrite IH. apply map_ext_in. intros i Hi. apply in_seq in Hi.
  replace (i - k)%nat with (S (i - S k)) by lia. reflexivity.
Qed.

Lemma nth_map_seq {B : Type} (f : nat -> B) (n i : nat) (d : B) :
  (i < n)%nat -> nth i (map f (seq 0 n)) d = f i.
Proof.
  intros Hi.
  rewrite (nth_indep _ d (f 0%nat)) by (rewrite length_map, length_seq; lia).
  rewrite map_nth, seq_nth by lia. reflexivity.
Qed.

Lemma sorted_frame_length (data : list TRMData) :
  length (sort_values (frame_of data)) = length data.
Proof. rewrite sort_values_length. apply length_map. Qed.

Lemma calculate_moving_average_rows (data : list TRMData) (window : Z) :
  data <> [] -> 0 <= window ->
  calculate_moving_average data window
  = Ok (map (ma_point (sort_values (frame_of data)) window)
            (seq 0 (length data))).
Proof.
  intros Hd Hw. unfold calculate_moving_average.
  destruct data as [| o data]; [congruence |].
  set (df := sort_values (frame_of (o :: data))).
  unfold rolling_mean. destruct (Z.ltb_spec window 0); [lia |].
  unfold bind. f_equal. unfold append_moving_average.
  rewrite (fold_left_append
             (fun row : Row * npfloat =>
                mkTRMMovingAverage (row_fecha (fst row)) (row_trm (fst row))
                  (if isna (snd row) then None else Some (snd row)) window)).
  simpl app. unfold trm_column at 2. rewrite length_map.
  rewrite (combine_map_seq df _ row0 0), map_map.
  replace (length df) with (length (o :: data))
    by (symmetry; apply sorted_frame_length).
  apply map_ext. intros i. rewrite Nat.sub_0_r. reflexivity.
Qed.

Lemma map_nth_seq {A B : Type} (f : A -> B) (l : list A) (d : A) :
  map (fun i => f (nth i l d)) (seq 0 (length l)) = map f l.
Proof.
  apply (nth_ext _ _ (f d) (f d)).
  - now rewrite !length_map, length_seq.
  - intros i Hi. rewrite length_map, length_seq in Hi.
    rewrite nth_map_seq by assumption. now rewrite map_nth.
Qed.

Lemma StronglySorted_map {A B : Type} (R : A -> A -> Prop) (Q : B -> B -> Prop)
    (f : A -> B) (l : list A) :
  (forall x y, R x y -> Q (f x) (f y)) ->
  StronglySorted R l -> StronglySorted Q (map f l).
Proof.
  intros HRQ. induction 1 as [| x l Hs IH Hx]; simpl; constructor.
  - exact IH.
  - apply Forall_map. eapply Forall_impl; [| exact Hx]. intros y. apply HRQ.
Qed.

Lemma ma_points_observations (df : DataFrame) (window : Z) :
  map ma_observation (map (ma_point df window) (seq 0 (length df)))
  = map of_row df.
Proof.
  rewrite map_map. rewrite <- (map_nth_seq of_row df row0).
  apply map_ext. reflexivity.
Qed.

Lemma of_row_sorted_perm (data : list TRMData) :
  Permutation data (map of_row (sort_values (frame_of data))).
Proof.
  rewrite <- (of_row_to_dict data) at 1.
  apply Permutation_map, sort_values_perm.
Qed.

(** C10. For a non-empty input and a window w >= 1 the moving average
    returns one point per observation: the output has the length of the
    input and carries the observations (date and value) unchanged, in
    ascending date order; the window does not influence which dates and
    values are returned. *)
Theorem moving_average_one_point_per_observation
    (data : list TRMData) (window : Z) :
  data <> [] -> 1 <= window ->
  exists out,
    calculate_moving_average data window = Ok out
    /\ length out = length data
    /\ Permutation data (map ma_observation out)
    /\ StronglySorted date_le (map ma_fecha out)
    /\ Forall (fun p => ma_window p = window) out
    /\ forall window', 1 <= window' ->
         exists out', calculate_moving_average data window' = Ok out'
                      /\ map ma_observation out' = map ma_observation out.
Proof.
  intros Hd Hw. eexists. split; [apply calculate_moving_average_rows; [assumption | lia] |].
  pose proof (sorted_frame_length data) as Hlen.
  rewrite <- Hlen.
  split; [now rewrite length_map, length_seq |].
  split; [rewrite ma_points_observations; apply of_row_sorted_perm |].
  split.
  { replace (map ma_fecha
               (map (ma_point (sort_values (frame_of data)) window)
                    (seq 0 (length (sort_values (frame_of data))))))
      with (map row_fecha (sort_values (frame_of data))).
    - apply (StronglySorted_map row_le); [auto | apply sort_values_sorted].
    - rewrite map_map. rewrite <- (map_nth_seq row_fecha _ row0).
      apply map_ext. reflexivity. }
  split.
  { apply Forall_map, Forall_forall. reflexivity. }
  intros w' Hw'. eexists.
  split; [apply calculate_moving_average_rows; [assumption | lia] |].
  rewrite <- Hlen. now rewrite !ma_points_observations.
Qed.

Lemma moving_average_one_point_per_observation_witness :
  exists out,
    calculate_moving_average
      [mkTRMData (mkDate 2024 1 2) 110; mkTRMData (mkDate 2024 1 1) 100] 2
    = Ok out
    /\ length out = 2%nat.
Proof.
  destruct (moving_average_one_point_per_observation
              [mkTRMData (mkDate 2024 1 2) 110; mkTRMData (mkDate 2024 1 1) 100]
              2 ltac:(discriminate) ltac:(lia))
    as (out & Hout & Hlen & _).
  exists out. split; assumption.
Defined.



(** ** Windows that are not positive *)

(** C5 (as amended). For a non-empty series, window 0 is accepted: the
    result has one point per observation, each with the moving average
    absent, and nothing is raised.  A negative window is rejected by the
    validation of the rolling window and the call raises [ValueError]. *)
Theorem moving_average_nonpositive_window (data : list TRMData) :
  data <> [] ->
  (exists out,
      calculate_moving_average data 0 = Ok out
      /\ length out = length data
      /\ Forall (fun p => promedio_movil p = None) out)
  /\ (forall window, window < 0 -> raises (calculate_moving_average data window)).
Proof.
  intros Hd. split.
  - eexists. split; [apply calculate_moving_average_rows; [assumption | lia] |].
    split; [now rewrite length_map, length_seq |].
    apply Forall_map, Forall_forall. intros i _.
    unfold ma_point. simpl. now rewrite rolling_mean_at_zero.
  - intros window Hw. unfold calculate_moving_average, rolling_mean.
    destruct data as [| o data]; [congruence |].
    destruct (Z.ltb_spec window 0); [| lia].
    eexists. reflexivity.
Qed.

Lemma moving_average_nonpositive_window_witness :
  (exists out,
      calculate_moving_average [mkTRMData (mkDate 2024 1 1) 100] 0 = Ok out
      /\ length out = 1%nat
      /\ Forall (fun p => promedio_movil p = None) out)
  /\ raises (calculate_moving_average [mkTRMData (mkDate 2024 1 1) 100] (-1)).
Proof.
  destruct (moving_average_nonpositive_window
              [mkTRMData (mkDate 2024 1 1) 100] ltac:(discriminate))
    as [H0 Hneg].
  split; [exact H0 | apply Hneg; lia].
Defined.

(** C5 as stated fails: with window -1 a one-point series makes
    [calculate_moving_average] raise instead of returning points without
    a moving average. *)
Lemma moving_average_negative_window_raises :
  ~ (forall (data : list TRMData) (window : Z),
        data <> [] -> window <= 0 ->
        exists out,
          calculate_moving_average data window = Ok out
          /\ Forall (fun p => promedio_movil p = None) out).
Proof.
  intros H.
  destruct (H [mkTRMData (mkDate 2024 1 1) 100] (-1)
              ltac:(discriminate) ltac:(lia)) as (out & Hout & _).
  discriminate Hout.
Qed.

(** ** Statistics: first and last row *)

Lemma hd_In {A : Type} (l : list A) (d : A) : l <> [] -> In (hd d l) l.
Proof. destruct l; [congruence | intros _; now left]. Qed.

Lemma last_In {A : Type} (l : list A) (d : A) : l <> [] -> In (last l d) l.
Proof.
  induction l as [| x l IH]; [congruence |]. intros _.
  destruct l as [| y l]; [now left |].
  right. apply IH. discriminate.
Qed.

Lemma sorted_hd_least {A : Type} (R : A -> A -> Prop) (l : list A) (d x : A) :
  (forall a, R a a) -> StronglySorted R l -> In x l -> R (hd d l) x.
Proof.
  intros Hrefl Hs Hx. destruct Hs as [| y l Hs Hy]; [contradiction |].
  simpl. destruct Hx as [<- | Hx]; [apply Hrefl |].
  rewrite Forall_forall in Hy. now apply Hy.
Qed.

Lemma sorted_last_greatest {A : Type} (R : A -> A -> Prop) (l : list A) (d x : A) :
  (forall a, R a a) -> StronglySorted R l -> In x l -> R x (last l d).
Proof.
  intros Hrefl Hs. induction Hs as [| y l Hs IH Hy]; [contradiction |].
  intros Hx. destruct l as [| z l].
  - destruct Hx as [<- | []]. apply Hrefl.
  - destruct Hx as [<- | Hx].
    + rewrite Forall_forall in Hy. apply Hy, (last_In (z :: l)). discriminate.
    + apply IH, Hx.
Qed.

Lemma row_le_refl (r : Row) : row_le r r.
Proof. apply date_leb_refl. Qed.


Lemma sorted_frame_in (data : list TRMData) (o : TRMData) :
  In o data -> In (to_dict o) (sort_values (frame_of data)).
Proof.
  intros Ho. apply (Permutation_in _ (sort_values_perm _)).
  now apply in_map.
Qed.



(** ** Statistics of a single observation *)

(** C6 (as amended). For a series of one observation the statistics are
    defined, the standard deviation is NaN (never 0) and the absolute
    change is 0; the percent change is 0 when the value is not zero, and
    NaN (from 0/0) when the value is zero. *)
Theorem statistics_single_point (o : TRMData) :
  exists st,
    calculate_statistics [o] = Some st
    /\ count st = 1
    /\ std_dev st = StdNaN
    /\ feq (change st) (Fin 0)
    /\ (~ valor o == 0 -> feq (change_pct st) (Fin 0))
    /\ (valor o == 0 -> change_pct st = NaN).
Proof.
  eexists. split; [reflexivity |]. simpl.
  split; [reflexivity |]. split; [reflexivity |].
  split; [ring |].
  unfold Qis_zero. split.
  - intros Hnz. destruct (Qeq_bool (valor o) 0) eqn:E.
    + apply Qeq_bool_iff in E. contradiction.
    + simpl. field. exact Hnz.
  - intros Hz. apply Qeq_bool_iff in Hz. rewrite Hz. reflexivity.
Qed.

Lemma statistics_single_point_witness :
  exists st,
    calculate_statistics [mkTRMData (mkDate 2024 1 1) 4000] = Some st
    /\ std_dev st = StdNaN
    /\ feq (change st) (Fin 0)
    /\ feq (change_pct st) (Fin 0).
Proof.
  destruct (statistics_single_point (mkTRMData (mkDate 2024 1 1) 4000))
    as (st & Hst & _ & Hstd & Hchange & Hpct & _).
  exists st. repeat split; try assumption.
  apply Hpct. simpl. discriminate.
Defined.

(** C6 as stated fails: for the one-point series whose value is 0 the
    percent change is NaN, not 0. *)
Lemma statistics_single_zero_point_pct_is_nan :
  ~ (forall o : TRMData,
        exists st,
          calculate_statistics [o] = Some st
          /\ std_dev st = StdNaN
          /\ feq (change st) (Fin 0)
          /\ feq (change_pct st) (Fin 0)).
Proof.
  intros H.
  destruct (H (mkTRMData (mkDate 2024 1 1) 0)) as (st & Hst & _ & _ & Hpct).
  injection Hst as <-. exact Hpct.
Qed.

(** ** Statistics: the extremes bound every value *)

Local Open Scope Q_scope.

Lemma fold_Qmin_lower (l : list Q) (a : Q) :
  fold_left Qmin l a <= a /\ forall x, In x l -> fold_left Qmin l a <= x.
Proof.
  revert a. induction l as [| y l IH]; intros a; simpl.
  - split; [apply Qle_refl | contradiction].
  - destruct (IH (Qmin a y)) as [Hacc Hall]. split.
    + eapply Qle_trans; [exact Hacc | apply Q.le_min_l].
    + intros x [<- | Hx]; [| now apply Hall].
      eapply Qle_trans; [exact Hacc | apply Q.le_min_r].
Qed.

Lemma fold_Qmax_upper (l : list Q) (a : Q) :
  a <= fold_left Qmax l a /\ forall x, In x l -> x <= fold_left Qmax l a.
Proof.
  revert a. induction l as [| y l IH]; intros a; simpl.
  - split; [apply Qle_refl | contradiction].
  - destruct (IH (Qmax a y)) as [Hacc Hall]. split.
    + eapply Qle_trans; [apply Q.le_max_l | exact Hacc].
    + intros x [<- | Hx]; [| now apply Hall].
      eapply Qle_trans; [apply Q.le_max_r | exact Hacc].
Qed.

Lemma series_extremes (vs : list Q) :
  vs <> [] ->
  exists mn mx,
    series_min vs = Fin mn /\ series_max vs = Fin mx
    /\ forall x, In x vs -> mn <= x /\ x <= mx.
Proof.
  destruct vs as [| v vs]; [congruence |]. intros _.
  exists (fold_left Qmin vs v), (fold_left Qmax vs v).
  split; [reflexivity |]. split; [reflexivity |].
  destruct (fold_Qmin_lower vs v) as [Hmin0 Hmin].
  destruct (fold_Qmax_upper vs v) as [Hmax0 Hmax].
  intros x [<- | Hx]; split; auto.
Qed.

Lemma Qlen_cons (x : Q) (l : list Q) : Qlen (x :: l) == 1 + Qlen l.
Proof.
  unfold Qlen. simpl length. rewrite Nat2Z.inj_succ, <- Z.add_1_l.
  rewrite inject_Z_plus. reflexivity.
Qed.

Lemma Qlen_nonneg (l : list Q) : 0 <= Qlen l.
Proof.
  unfold Qlen. change 0%Q with (inject_Z 0). rewrite <- Zle_Qle. lia.
Qed.

Lemma Qlen_pos (l : list Q) : l <> [] -> 0 < Qlen l.
Proof.
  destruct l as [| x l]; [congruence |]. intros _.
  rewrite Qlen_cons. pose proof (Qlen_nonneg l). lra.
Qed.

Local Close Scope Q_scope.

(** ** Extreme variations *)

Lemma nth_firstn_lt {A : Type} (l : list A) (n i : nat) (d : A) :
  (i < n)%nat -> nth i (firstn n l) d = nth i l d.
Proof.
  revert l i. induction n as [| n IH]; intros l i Hi; [lia |].
  destruct l as [| x l]; [reflexivity |].
  destruct i as [| i]; [reflexivity |].
  simpl. apply IH. lia.
Qed.

Lemma shift_length (xs : list npfloat) : length (shift xs) = length xs.
Proof. unfold shift. rewrite length_firstn. simpl. lia. Qed.

Lemma pct_change_length (vs : list Q) : length (pct_change vs) = length vs.
Proof.
  unfold pct_change. rewrite length_map, length_combine, shift_length.
  rewrite length_map. lia.
Qed.

Lemma pct_change_nth (vs : list Q) (i : nat) :
  (i < length vs)%nat ->
  nth i (pct_change vs) NaN
  = fsub (fdiv (Fin (nth i vs 0%Q))
               (match i with O => NaN | S j => Fin (nth j vs 0%Q) end))
         (Fin 1).
Proof.
  intros Hi. unfold pct_change.
  pose (h := fun '(x, prev) => fsub (fdiv x prev) (Fin 1)).
  change (nth i (map h (combine (map Fin vs) (shift (map Fin vs)))) (h (NaN, NaN))
          = fsub (fdiv (Fin (nth i vs 0%Q))
                       (match i with O => NaN | S j => Fin (nth j vs 0%Q) end))
                 (Fin 1)).
  rewrite (map_nth h), combine_nth by (now rewrite shift_length).
  unfold h.
  unfold shift. rewrite nth_firstn_lt by (now rewrite length_map).
  rewrite (nth_indep (map Fin vs) NaN (Fin 0)) by (now rewrite length_map).
  rewrite map_nth.
  destruct i as [| j]; [reflexivity |].
  simpl nth at 2.
  rewrite (nth_indep (map Fin vs) NaN (Fin 0)) by (rewrite length_map; lia).
  now rewrite map_nth.
Qed.

Lemma var_pct_nth (vs : list Q) (i : nat) :
  (i < length vs)%nat ->
  nth i (map (fun p => fmul p (Fin 100)) (pct_change vs)) NaN
  = match i with O => NaN | S _ => percent_change_at vs i end.
Proof.
  intros Hi.
  pose (F := fun p => fmul p (Fin 100)).
  change (nth i (map F (pct_change vs)) (F NaN)
          = match i with O => NaN | S _ => percent_change_at vs i end).
  rewrite (map_nth F), pct_change_nth by assumption. unfold F.
  destruct i as [| j]; [reflexivity |].
  unfold percent_change_at. simpl. now rewrite Nat.sub_0_r.
Qed.

Lemma combine_nth_seq {A B : Type} (l : list A) (l' : list B) (d : A) (d' : B) :
  length l = length l' ->
  combine l l' = map (fun i => (nth i l d, nth i l' d')) (seq 0 (length l)).
Proof.
  intros Hlen. apply (nth_ext _ _ (d, d') (d, d')).
  - rewrite length_combine, length_map, length_seq. lia.
  - intros i Hi. rewrite length_combine in Hi.
    rewrite combine_nth by assumption.
    rewrite nth_map_seq by lia. reflexivity.
Qed.

Lemma filter_implied {A : Type} (p q : A -> bool) (l : list A) :
  (forall x, q x = true -> p x = true) ->
  filter p (filter q l) = filter q l.
Proof.
  intros H. induction l as [| x l IH]; simpl; [reflexivity |].
  destruct (q x) eqn:E; [| exact IH].
  simpl. rewrite (H x E), IH. reflexivity.
Qed.

Lemma exceeds_not_na (t p : npfloat) : exceeds t p = true -> isna p = false.
Proof. destruct p; simpl; [reflexivity .. |]. discriminate. Qed.

(** The loop of [find_extreme_variations], row by row of the sorted
    frame: row 0 never qualifies, row [i >= 1] qualifies exactly when its
    percent change exceeds the threshold. *)
Lemma find_extreme_variations_rows (data : list TRMData) (t : npfloat) :
  find_extreme_variations data t
  = map (variation_at (sort_values (frame_of data)))
        (filter (fun i => exceeds t
                   (percent_change_at (trm_column (sort_values (frame_of data))) i))
                (seq 1 (length data - 1))).
Proof.
  unfold find_extreme_variations.
  destruct data as [| o0 data0] eqn:Edata; [reflexivity |].
  rewrite <- Edata.
  assert (Hn : length data = S (length data0)) by now rewrite Edata.
  set (df := sort_values (frame_of data)).
  set (vs := trm_column df).
  set (var_pct := map (fun p => fmul p (Fin 100)) (pct_change vs)).
  assert (Hdf : length df = length data) by apply sorted_frame_length.
  assert (Hvs : length vs = length data)
    by (unfold vs, trm_column; now rewrite length_map).
  assert (Hvp : length var_pct = length data)
    by (unfold var_pct; now rewrite length_map, pct_change_length).
  unfold append_variation.
  rewrite (fold_left_append_if
             (fun row : Row * npfloat => negb (isna (snd row)))
             (fun row : Row * npfloat =>
                mkTRMVariation (row_fecha (fst row)) (row_trm (fst row)) (snd row))).
  simpl app.
  rewrite (filter_implied _ (fun row : Row * npfloat => fgtb (fabs (snd row)) t)).
  2:{ intros [r p] Hp. simpl in *. now rewrite (exceeds_not_na t p Hp). }
  rewrite (combine_nth_seq df var_pct row0 NaN) by lia.
  rewrite filter_map_comm, map_map. rewrite Hdf, Hn. simpl fst. simpl snd.
  replace (S (length data0) - 1)%nat with (length data0) by lia.
  change (seq 0 (S (length data0))) with (0%nat :: seq 1 (length data0)).
  cbn [filter].
  replace (fgtb (fabs (nth 0 var_pct NaN)) t) with false.
  2:{ unfold var_pct. rewrite var_pct_nth by lia. reflexivity. }
  rewrite (filter_ext_in
             (fun i => fgtb (fabs (nth i var_pct NaN)) t)
             (fun i => exceeds t (percent_change_at vs i))).
  2:{ intros i Hi. apply in_seq in Hi. unfold var_pct.
      rewrite var_pct_nth by lia.
      destruct i as [| j]; [lia | reflexivity]. }
  apply map_ext_in. intros i Hi.
  apply filter_In in Hi. destruct Hi as [Hi _]. apply in_seq in Hi.
  unfold variation_at. f_equal. unfold var_pct.
  rewrite var_pct_nth by lia.
  destruct i as [| j]; [lia | reflexivity].
Qed.

Lemma StronglySorted_filter {A : Type} (R : A -> A -> Prop) (p : A -> bool)
    (l : list A) :
  StronglySorted R l -> StronglySorted R (filter p l).
Proof.
  induction 1 as [| x l Hs IH Hx]; simpl; [constructor |].
  destruct (p x); [| exact IH].
  constructor; [exact IH |].
  rewrite Forall_forall in *. intros y Hy. apply filter_In in Hy.
  apply Hx, Hy.
Qed.

Lemma seq_increasing (n a len : nat) :
  (a + len <= n)%nat ->
  StronglySorted (fun i j => i < j < n)%nat (seq a len).
Proof.
  revert a. induction len as [| len IH]; intros a Ha; simpl; constructor.
  - apply IH. lia.
  - apply Forall_forall. intros j Hj. apply in_seq in Hj. lia.
Qed.

Lemma sorted_nth {A : Type} (R : A -> A -> Prop) (l : list A) (d : A) (i j : nat) :
  StronglySorted R l -> (i < j < length l)%nat -> R (nth i l d) (nth j l d).
Proof.
  intros Hs. revert i j. induction Hs as [| x l Hs IH Hx]; intros i j Hij;
    simpl in Hij; [lia |].
  destruct j as [| j]; [lia |]. destruct i as [| i]; simpl.
  - rewrite Forall_forall in Hx. apply Hx, nth_In. lia.
  - apply IH. lia.
Qed.

(** ** Bounds that fail to parse *)

Lemma given_some (s : string) :
  given (Some s) = None \/ given (Some s) = Some s.
Proof. destruct s; [left | right]; reflexivity. Qed.

(** C7 (as amended). In [TRMDataLoader.get_data_range] of
    [python_app/trm_app.py] a start or end bound that fails to parse is
    ignored: the result is the one obtained with that bound not given
    (the series filtered by the other bound only; the whole series when
    both fail), and no exception leaves the function. *)
Theorem unparseable_bound_is_ignored
    (to_datetime : string -> result date) (data : DataFrame)
    (bad : string) (other : option string) :
  raises (to_datetime bad) ->
  get_data_range to_datetime (Some data) (Some bad) other
  = get_data_range to_datetime (Some data) None other
  /\ get_data_range to_datetime (Some data) other (Some bad)
     = get_data_range to_datetime (Some data) other None
  /\ get_data_range to_datetime (Some data) (Some bad) (Some bad) = Some data.
Proof.
  intros [e He]. unfold get_data_range.
  destruct (given_some bad) as [-> | ->]; simpl;
    rewrite ?He; repeat split; reflexivity.
Qed.

Lemma unparseable_bound_is_ignored_witness :
  get_data_range fromisoformat
    (Some [mkRow (mkDate 2024 1 1) 100; mkRow (mkDate 2024 1 2) 110])
    (Some "not-a-date"%string) (Some "2024-01-01"%string)
  = Some [mkRow (mkDate 2024 1 1) 100].
Proof.
  destruct (unparseable_bound_is_ignored fromisoformat
              [mkRow (mkDate 2024 1 1) 100; mkRow (mkDate 2024 1 2) 110]
              "not-a-date"%string (Some "2024-01-01"%string)
              ltac:(eexists; reflexivity)) as [H _].
  etransitivity; [exact H | reflexivity].
Defined.

(** C7 as stated fails on each of the three range filters: with the start
    bound ["not-a-date"] and a one-row series, [get_trm_data] and the
    [get_data_range] of [trm_data_loader.py] raise [ValueError], and the
    [get_data_range] of [python_app/trm_app.py] returns the row instead of
    an empty series.  (["not-a-date"] is rejected by [date.fromisoformat]
    and by [pd.to_datetime] alike; the former stands for both here.) *)
Lemma unparseable_bound_is_not_empty_result :
  let series := [mkRow (mkDate 2024 1 1) 100] in
  raises (get_trm_data (get_by_date_range (Some series))
            (Some "not-a-date"%string) None)
  /\ raises (loader_get_data_range fromisoformat (Some series)
               (Some "not-a-date"%string) None)
  /\ get_data_range fromisoformat (Some series) (Some "not-a-date"%string) None
     = Some series
  /\ ~ (forall (to_datetime : string -> result date) (data : DataFrame)
               (bad : string) (other : option string),
           raises (to_datetime bad) ->
           get_data_range to_datetime (Some data) (Some bad) other = Some []).
Proof.
  cbv zeta. split; [eexists; reflexivity |]. split; [eexists; reflexivity |].
  split; [reflexivity |].
  intros H.
  specialize (H fromisoformat [mkRow (mkDate 2024 1 1) 100]
                "not-a-date"%string None ltac:(eexists; reflexivity)).
  discriminate H.
Qed.

(** ** The worked examples of the specification *)

Example example_statistics :
  exists st,
    calculate_statistics example_series = Some st
    /\ feq (min_value st) (Fin 99) /\ feq (max_value st) (Fin 110)
    /\ feq (avg_value st) (Fin 103)
    /\ start_value st = 100%Q /\ end_value st = 99%Q
    /\ feq (change st) (Fin (-1)) /\ feq (change_pct st) (Fin (-1)).
Proof. eexists. split; [reflexivity |]. repeat split. Qed.

Example example_moving_average :
  exists out,
    calculate_moving_average example_series 2 = Ok out
    /\ map promedio_movil out = [None; Some (Fin (210 # 2)); Some (Fin (209 # 2))].
Proof. eexists. split; reflexivity. Qed.

Example example_extreme_variations :
  map (fun r => (var_fecha r, var_valor r))
      (find_extreme_variations example_series (Fin 5))
  = [(mkDate 2024 1 2, 110%Q); (mkDate 2024 1 3, 99%Q)]
  /\ Forall2 feq
       (map variacion_pct (find_extreme_variations example_series (Fin 5)))
       [Fin 10; Fin (-10)].
Proof. split; [reflexivity |]. repeat constructor. Qed.

(** Start and end values are positional: on a series given out of date
    order they are the values of the earliest and latest date, and differ
    from the minimum and maximum value. *)
Example example_start_end_are_not_extremes :
  exists st,
    calculate_statistics
      [mkTRMData (mkDate 2024 1 3) 99; mkTRMData (mkDate 2024 1 1) 100;
       mkTRMData (mkDate 2024 1 2) 110] = Some st
    /\ start_value st = 100%Q /\ end_value st = 99%Q
    /\ min_value st = Fin 99 /\ max_value st = Fin 110.
Proof. eexists. split; [reflexivity |]. repeat split. Qed.

(** * Further properties of the analytics core *)

(** ** The sorted frame does not depend on the input order *)

Lemma date_leb_antisym (a b : date) :
  date_leb a b = true -> date_leb b a = true -> a = b.
Proof.
  destruct a as [ya ma da], b as [yb mb db]. unfold date_leb. simpl.
  intros H1 H2.
  assert (ya = yb /\ ma = mb /\ da = db) as (-> & -> & ->); [| reflexivity].
  destruct (Z.ltb_spec ya yb), (Z.ltb_spec yb ya),
    (Z.eqb_spec ya yb), (Z.eqb_spec yb ya),
    (Z.ltb_spec ma mb), (Z.ltb_spec mb ma),
    (Z.eqb_spec ma mb), (Z.eqb_spec mb ma),
    (Z.leb_spec da db), (Z.leb_spec db da);
    simpl in *; try discriminate; try lia.
Qed.

Lemma NoDup_map_inj_in {A B : Type} (f : A -> B) (l : list A) (a b : A) :
  NoDup (map f l) -> In a l -> In b l -> f a = f b -> a = b.
Proof.
  induction l as [| x l IH]; simpl; [contradiction |].
  intros Hnd Ha Hb Hab. inversion Hnd as [| y ys Hnotin Hnd']; subst.
  destruct Ha as [<- | Ha], Hb as [<- | Hb]; auto.
  - exfalso. apply Hnotin. rewrite Hab. now apply in_map.
  - exfalso. apply Hnotin. rewrite <- Hab. now apply in_map.
Qed.

Lemma sorted_perm_unique {A : Type} (R : A -> A -> Prop) (l1 l2 : list A) :
  (forall x y, In x l1 -> In y l1 -> R x y -> R y x -> x = y) ->
  StronglySorted R l1 -> StronglySorted R l2 -> Permutation l1 l2 -> l1 = l2.
Proof.
  revert l2. induction l1 as [| x l1 IH]; intros l2 Hanti H1 H2 Hp.
  - apply Permutation_nil in Hp. now subst.
  - destruct l2 as [| y l2];
      [apply Permutation_sym, Permutation_nil in Hp; discriminate |].
    inversion H1 as [| ? ? Hs1 Hx]; inversion H2 as [| ? ? Hs2 Hy]; subst.
    rewrite Forall_forall in Hx, Hy.
    assert (Hxy : x = y).
    { assert (Hyin : In y (x :: l1))
        by (apply (Permutation_in _ (Permutation_sym Hp)); now left).
      assert (Hxin : In x (y :: l2))
        by (apply (Permutation_in _ Hp); now left).
      destruct Hyin as [Hyx | Hyin]; [exact Hyx |].
      destruct Hxin as [Hxy | Hxin]; [now symmetry |].
      apply Hanti; [now left | now right | now apply Hx | now apply Hy]. }
    subst y. f_equal.
    apply IH; auto.
    + intros a b Ha Hb. apply Hanti; now right.
    + now apply Permutation_cons_inv in Hp.
Qed.

Lemma sort_values_perm_invariant (df df' : DataFrame) :
  Permutation df df' -> NoDup (fecha_column df) ->
  sort_values df = sort_values df'.
Proof.
  intros Hp Hnd.
  apply (sorted_perm_unique row_le); try apply sort_values_sorted.
  - intros a b Ha Hb Hab Hba.
    apply (Permutation_in _ (Permutation_sym (sort_values_perm df))) in Ha, Hb.
    apply (NoDup_map_inj_in row_fecha df a b Hnd Ha Hb).
    now apply date_leb_antisym.
  - eapply perm_trans; [apply Permutation_sym, sort_values_perm |].
    eapply perm_trans; [exact Hp | apply sort_values_perm].
Qed.

Lemma fecha_column_frame_of (data : list TRMData) :
  fecha_column (frame_of data) = map fecha data.
Proof. unfold fecha_column, frame_of. rewrite map_map. reflexivity. Qed.

(** X1. When the dates of the observations are unique, the statistics,
    the moving average and the extreme variations depend only on the set
    of observations: reordering the input list changes none of them. *)
Theorem results_independent_of_input_order
    (data data' : list TRMData) (window : Z) (threshold_pct : npfloat) :
  Permutation data data' -> NoDup (map fecha data) ->
  calculate_statistics data = calculate_statistics data'
  /\ calculate_moving_average data window = calculate_moving_average data' window
  /\ find_extreme_variations data threshold_pct
     = find_extreme_variations data' threshold_pct.
Proof.
  intros Hp Hnd.
  assert (Hs : sort_values (frame_of data) = sort_values (frame_of data')).
  { apply sort_values_perm_invariant.
    - now apply Permutation_map.
    - now rewrite fecha_column_frame_of. }
  destruct data as [| o data]; destruct data' as [| o' data'].
  - repeat split.
  - apply Permutation_nil in Hp. discriminate.
  - apply Permutation_sym, Permutation_nil in Hp. discriminate.
  - unfold calculate_statistics, calculate_moving_average,
      find_extreme_variations.
    rewrite Hs. repeat split.
Qed.

Lemma results_independent_of_input_order_witness :
  calculate_statistics
    [mkTRMData (mkDate 2024 1 2) 110; mkTRMData (mkDate 2024 1 1) 100]
  = calculate_statistics
      [mkTRMData (mkDate 2024 1 1) 100; mkTRMData (mkDate 2024 1 2) 110].
Proof.
  apply (results_independent_of_input_order
           [mkTRMData (mkDate 2024 1 2) 110; mkTRMData (mkDate 2024 1 1) 100]
           [mkTRMData (mkDate 2024 1 1) 100; mkTRMData (mkDate 2024 1 2) 110]
           1 NaN).
  - apply perm_swap.
  - repeat constructor; simpl; intuition discriminate.
Defined.

(** ** Statistics: period, extremes and spread *)

Lemma fold_date_min_least (ds : list date) (d : date) :
  (forall x, In x ds -> date_le d x) -> fold_left date_min ds d = d.
Proof.
  induction ds as [| x ds IH]; intros H; simpl; [reflexivity |].
  unfold date_min at 2. rewrite (H x (or_introl eq_refl)).
  apply IH. intros y Hy. apply H. now right.
Qed.

Lemma last_cons_default {A : Type} (x : A) (l : list A) (d : A) :
  last (x :: l) d = last l x.
Proof.
  revert x d. induction l as [| y l IH]; intros x d; [reflexivity |].
  change (last (x :: y :: l) d) with (last (y :: l) d).
  rewrite IH. symmetry. apply IH.
Qed.

Lemma fold_date_max_sorted (l : list date) (a : date) :
  StronglySorted date_le (a :: l) -> fold_left date_max l a = last l a.
Proof.
  revert a. induction l as [| x l IH]; intros a Hs; [reflexivity |].
  inversion Hs as [| ? ? Hs' Ha]; subst.
  simpl fold_left. unfold date_max at 2.
  rewrite Forall_forall in Ha. rewrite (Ha x (or_introl eq_refl)).
  rewrite IH by exact Hs'. symmetry. apply last_cons_default.
Qed.

Lemma last_map {A B : Type} (f : A -> B) (l : list A) (d : A) :
  last (map f l) (f d) = f (last l d).
Proof.
  induction l as [| x l IH]; [reflexivity |].
  destruct l as [| y l]; [reflexivity |]. exact IH.
Qed.

Lemma sorted_dates (df : DataFrame) :
  StronglySorted row_le df -> StronglySorted date_le (fecha_column df).
Proof. apply StronglySorted_map. auto. Qed.

(** X2. The period reported by the statistics is the date of the first
    and of the last row of the date-sorted series, i.e. of the rows that
    give startValue and endValue; the start date is not after the end
    date and every observation lies within the period. *)
Theorem statistics_period (data : list TRMData) :
  data <> [] ->
  exists st,
    calculate_statistics data = Some st
    /\ start_date st = row_fecha (hd row0 (sort_values (frame_of data)))
    /\ end_date st = row_fecha (last (sort_values (frame_of data)) row0)
    /\ date_le (start_date st) (end_date st)
    /\ forall o, In o data ->
         date_le (start_date st) (fecha o) /\ date_le (fecha o) (end_date st).
Proof.
  intros Hd. unfold calculate_statistics.
  destruct data as [| o0 data0] eqn:Edata; [congruence |]. rewrite <- Edata in *.
  eexists. split; [reflexivity |]. simpl.
  set (df := sort_values (frame_of data)).
  assert (Hne : df <> []) by (apply frame_of_nonempty; exact Hd).
  assert (Hs : StronglySorted row_le df) by apply sort_values_sorted.
  assert (Hmin : dates_min (fecha_column df) (row_fecha (hd row0 df))
                 = row_fecha (hd row0 df)).
  { apply fold_date_min_least. intros d Hin.
    apply in_map_iff in Hin. destruct Hin as (r & <- & Hr).
    exact (sorted_hd_least row_le df row0 r row_le_refl Hs Hr). }
  assert (Hmax : dates_max (fecha_column df) (row_fecha (hd row0 df))
                 = row_fecha (last df row0)).
  { destruct df as [| r df'] eqn:E; [congruence |].
    unfold dates_max. simpl hd. simpl fecha_column. simpl fold_left.
    unfold date_max at 2. rewrite date_leb_refl.
    rewrite fold_date_max_sorted
      by (apply (sorted_dates (r :: df')); exact Hs).
    rewrite <- (last_map row_fecha (r :: df') row0).
    simpl map. rewrite last_cons_default.
    reflexivity. }
  rewrite Hmin, Hmax.
  split; [reflexivity |]. split; [reflexivity |].
  split.
  - apply (sorted_last_greatest row_le df row0 _ row_le_refl Hs).
    now apply hd_In.
  - intros o Ho. split.
    + apply (sorted_hd_least row_le df row0 (to_dict o) row_le_refl Hs).
      now apply sorted_frame_in.
    + apply (sorted_last_greatest row_le df row0 (to_dict o) row_le_refl Hs).
      now apply sorted_frame_in.
Qed.

Lemma statistics_period_witness :
  exists st,
    calculate_statistics
      [mkTRMData (mkDate 2024 1 3) 99; mkTRMData (mkDate 2024 1 1) 100]
    = Some st
    /\ start_date st = mkDate 2024 1 1 /\ end_date st = mkDate 2024 1 3.
Proof.
  destruct (statistics_period
              [mkTRMData (mkDate 2024 1 3) 99; mkTRMData (mkDate 2024 1 1) 100]
              ltac:(discriminate)) as (st & Hst & Hs & He & _).
  exists st. repeat split; assumption.
Defined.

Local Open Scope Q_scope.

Lemma trm_column_nonempty (data : list TRMData) :
  data <> [] -> trm_column (sort_values (frame_of data)) <> [].
Proof.
  intros Hd Hnil. unfold trm_column in Hnil. apply map_eq_nil in Hnil.
  revert Hnil. now apply frame_of_nonempty.
Qed.


(** X3. The start and the end value reported by the statistics lie
    between the reported minimum and maximum. *)
Theorem statistics_start_end_within_extremes (data : list TRMData) :
  data <> [] ->
  exists st,
    calculate_statistics data = Some st
    /\ fle (min_value st) (Fin (start_value st))
    /\ fle (Fin (start_value st)) (max_value st)
    /\ fle (min_value st) (Fin (end_value st))
    /\ fle (Fin (end_value st)) (max_value st).
Proof.
  intros Hd. unfold calculate_statistics.
  destruct data as [| o0 data0] eqn:Edata; [congruence |]. rewrite <- Edata in *.
  eexists. split; [reflexivity |]. simpl.
  set (df := sort_values (frame_of data)).
  assert (Hne : df <> []) by (apply frame_of_nonempty; exact Hd).
  destruct (series_extremes (trm_column df) (trm_column_nonempty data Hd))
    as (mn & mx & -> & -> & Hall).
  destruct (Hall (row_trm (hd row0 df)))
    as [H1 H2]; [apply in_map, hd_In, Hne |].
  destruct (Hall (row_trm (last df row0)))
    as [H3 H4]; [apply in_map, last_In, Hne |].
  unfold fle. simpl. rewrite !Qle_bool_iff. auto.
Qed.

Lemma statistics_start_end_within_extremes_witness :
  exists st,
    calculate_statistics [mkTRMData (mkDate 2024 1 1) 100;
                          mkTRMData (mkDate 2024 1 2) 110] = Some st
    /\ fle (min_value st) (Fin (start_value st))
    /\ fle (Fin (end_value st)) (max_value st).
Proof.
  destruct (statistics_start_end_within_extremes
              [mkTRMData (mkDate 2024 1 1) 100; mkTRMData (mkDate 2024 1 2) 110]
              ltac:(discriminate)) as (st & Hst & H1 & _ & _ & H4).
  exists st. repeat split; assumption.
Defined.






(** ** Extreme variations and the threshold *)

Lemma fgtb_threshold_mono (x : npfloat) (t1 t2 : Q) :
  t1 <= t2 -> fgtb x (Fin t2) = true -> fgtb x (Fin t1) = true.
Proof.
  intros Ht. destruct x as [a | | |]; simpl; auto.
  rewrite !negb_true_iff. intros H.
  destruct (Qle_bool a t1) eqn:E; [| reflexivity].
  apply Qle_bool_iff in E.
  assert (Hle : a <= t2) by lra.
  apply Qle_bool_iff in Hle. congruence.
Qed.

(** X6. Raising the threshold only removes records: the variations for a
    threshold t2 >= t1 are the variations for t1 from which the records
    not exceeding t2 are filtered out, in the same order. *)
Theorem extreme_variations_threshold_monotone
    (data : list TRMData) (t1 t2 : Q) :
  t1 <= t2 ->
  find_extreme_variations data (Fin t2)
  = filter (fun r => fgtb (fabs (variacion_pct r)) (Fin t2))
           (find_extreme_variations data (Fin t1))
  /\ incl (find_extreme_variations data (Fin t2))
          (find_extreme_variations data (Fin t1))
  /\ (length (find_extreme_variations data (Fin t2))
      <= length (find_extreme_variations data (Fin t1)))%nat.
Proof.
  intros Ht.
  assert (Heq : find_extreme_variations data (Fin t2)
                = filter (fun r => fgtb (fabs (variacion_pct r)) (Fin t2))
                         (find_extreme_variations data (Fin t1))).
  { rewrite !find_extreme_variations_rows.
    rewrite filter_map_comm, filter_andb. f_equal.
    apply filter_ext. intros i. unfold exceeds, variation_at. simpl.
    destruct (fgtb (fabs (percent_change_at _ i)) (Fin t2)) eqn:E.
    - now rewrite (fgtb_threshold_mono _ t1 t2 Ht E).
    - symmetry. apply andb_false_r. }
  split; [exact Heq |]. rewrite Heq. split.
  - intros r Hr. apply filter_In in Hr. tauto.
  - apply filter_length_le.
Qed.

Lemma extreme_variations_threshold_monotone_witness :
  incl (find_extreme_variations example_series (Fin 10))
       (find_extreme_variations example_series (Fin 5)).
Proof.
  apply (extreme_variations_threshold_monotone example_series 5 10).
  unfold Qle. simpl. lia.
Defined.

Lemma percent_change_exceeds_zero (a b : Q) :
  fgtb (fabs (fmul (fsub (fdiv (Fin a) (Fin b)) (Fin 1)) (Fin 100))) (Fin 0)
  = negb (Qeq_bool a b).
Proof.
  unfold fdiv, Qis_zero, Qis_pos.
  destruct (Qeq_bool b 0) eqn:Eb.
  - apply Qeq_bool_iff in Eb.
    destruct (Qeq_bool a 0) eqn:Ea.
    + apply Qeq_bool_iff in Ea. simpl.
      assert (H : a == b) by (rewrite Ea, Eb; reflexivity).
      apply Qeq_bool_iff in H. now rewrite H.
    + assert (Hab : Qeq_bool a b = false).
      { destruct (Qeq_bool a b) eqn:E; [| reflexivity].
        apply Qeq_bool_iff in E. apply Qeq_bool_neq in Ea.
        exfalso. apply Ea. rewrite E. exact Eb. }
      rewrite Hab. destruct (negb (Qle_bool a 0)); reflexivity.
  - apply Qeq_bool_neq in Eb. cbn [fsub fmul fabs fgtb].
    destruct (Qeq_bool a b) eqn:Eab; cbn [negb].
    + apply Qeq_bool_iff in Eab. apply negb_false_iff, Qle_bool_iff.
      apply Qabs_Qle_condition.
      assert (Hz : (a / b - 1) * 100 == 0) by (rewrite Eab; field; exact Eb).
      rewrite Hz. split; lra.
    + apply Qeq_bool_neq in Eab. apply negb_true_iff.
      destruct (Qle_bool (Qabs ((a / b - 1) * 100)) 0) eqn:E; [| reflexivity].
      exfalso. apply Qle_bool_iff, Qabs_Qle_condition in E.
      apply Eab.
      assert (Hz : (a / b - 1) * 100 == 0) by lra.
      assert (Hd : a / b == 1) by lra.
      rewrite <- (Qmult_div_r a b Eb). rewrite Hd. ring.
Qed.

(** X7. With threshold 0 a row i >= 1 of the date-sorted series is
    reported exactly when its value differs from the value of the
    previous row; when no two consecutive values are equal, all rows
    but the first are reported. *)
Theorem extreme_variations_threshold_zero (data : list TRMData) :
  let df := sort_values (frame_of data) in
  let vs := trm_column df in
  find_extreme_variations data (Fin 0)
  = map (variation_at df)
        (filter (fun i => negb (Qeq_bool (nth i vs 0) (nth (i - 1) vs 0)))
                (seq 1 (length data - 1)))
  /\ ((forall i, (1 <= i < length data)%nat ->
         ~ nth i vs 0 == nth (i - 1) vs 0) ->
      length (find_extreme_variations data (Fin 0)) = (length data - 1)%nat).
Proof.
  cbv zeta. rewrite find_extreme_variations_rows.
  assert (Hf : forall l,
             filter (fun i => exceeds (Fin 0)
                        (percent_change_at
                           (trm_column (sort_values (frame_of data))) i)) l
             = filter (fun i => negb (Qeq_bool
                          (nth i (trm_column (sort_values (frame_of data))) 0)
                          (nth (i - 1)
                             (trm_column (sort_values (frame_of data))) 0))) l).
  { intros l. apply filter_ext. intros i. apply percent_change_exceeds_zero. }
  rewrite Hf. split; [reflexivity |].
  intros Hdiff. rewrite length_map.
  rewrite (filter_ext_in _ (fun _ => true)).
  - rewrite <- (length_seq (length data - 1) 1) at 2. f_equal.
    clear. induction (seq 1 (length data - 1)) as [| x l IH];
      simpl; [| rewrite IH]; reflexivity.
  - intros i Hi. apply in_seq in Hi. apply negb_true_iff.
    destruct (Qeq_bool _ _) eqn:E; [| reflexivity].
    apply Qeq_bool_iff in E. exfalso. apply (Hdiff i); [lia | exact E].
Qed.

Lemma extreme_variations_threshold_zero_witness :
  length (find_extreme_variations example_series (Fin 0)) = 2%nat.
Proof.
  apply (extreme_variations_threshold_zero example_series).
  intros i Hi. simpl in Hi.
  destruct i as [| [| [| i]]]; try lia; simpl; intros H; discriminate H.
Defined.

Local Close Scope Q_scope.

(** ** Range filter: edge cases and the available range *)

(** X8. A range whose start date lies after its end date selects
    nothing: the range filter returns the empty list, not an error. *)
Theorem range_filter_inverted_bounds_empty
    (data_df : option DataFrame) (a b : date) :
  date_leb a b = false ->
  get_by_date_range data_df (Some a) (Some b) = [].
Proof.
  intros Hab. unfold get_by_date_range. destruct data_df as [df |]; [| reflexivity].
  rewrite keep_bounds_filter.
  replace (filter (fun r => in_range (Some a) (Some b) (row_fecha r)) df)
    with (@nil Row); [reflexivity |].
  symmetry. induction df as [| r df IH]; [reflexivity |].
  cbn [filter]. rewrite IH. unfold in_range.
  destruct (date_leb a (row_fecha r)) eqn:E1; [| reflexivity].
  destruct (date_leb (row_fecha r) b) eqn:E2; [| reflexivity].
  rewrite (date_leb_trans _ _ _ E1 E2) in Hab. discriminate.
Qed.

Lemma range_filter_inverted_bounds_empty_witness :
  get_by_date_range (Some (frame_of example_series))
    (Some (mkDate 2024 1 3)) (Some (mkDate 2024 1 1)) = [].
Proof.
  apply range_filter_inverted_bounds_empty. reflexivity.
Defined.

Lemma date_min_le (a b : date) :
  date_le (date_min a b) a /\ date_le (date_min a b) b.
Proof.
  unfold date_min, date_le. destruct (date_leb a b) eqn:E.
  - split; [apply date_leb_refl | exact E].
  - split; [| apply date_leb_refl].
    destruct (date_leb_total a b); congruence.
Qed.

Lemma date_max_ge (a b : date) :
  date_le a (date_max a b) /\ date_le b (date_max a b).
Proof.
  unfold date_max, date_le. destruct (date_leb a b) eqn:E.
  - split; [exact E | apply date_leb_refl].
  - split; [apply date_leb_refl |].
    destruct (date_leb_total a b); congruence.
Qed.

Lemma dates_min_lower (ds : list date) (d : date) :
  date_le (dates_min ds d) d /\ forall x, In x ds -> date_le (dates_min ds d) x.
Proof.
  unfold dates_min. revert d. induction ds as [| y ds IH]; intros d; simpl.
  - split; [apply date_leb_refl | contradiction].
  - destruct (IH (date_min d y)) as [Hacc Hall].
    destruct (date_min_le d y) as [H1 H2]. split.
    + exact (date_leb_trans _ _ _ Hacc H1).
    + intros x [<- | Hx]; [| now apply Hall].
      exact (date_leb_trans _ _ _ Hacc H2).
Qed.

Lemma dates_max_upper (ds : list date) (d : date) :
  date_le d (dates_max ds d) /\ forall x, In x ds -> date_le x (dates_max ds d).
Proof.
  unfold dates_max. revert d. induction ds as [| y ds IH]; intros d; simpl.
  - split; [apply date_leb_refl | contradiction].
  - destruct (IH (date_max d y)) as [Hacc Hall].
    destruct (date_max_ge d y) as [H1 H2]. split.
    + exact (date_leb_trans _ _ _ H1 Hacc).
    + intros x [<- | Hx]; [| now apply Hall].
      exact (date_leb_trans _ _ _ H2 Hacc).
Qed.

Lemma filter_all_true {A : Type} (p : A -> bool) (l : list A) :
  (forall x, In x l -> p x = true) -> filter p l = l.
Proof.
  induction l as [| x l IH]; intros H; simpl; [reflexivity |].
  rewrite (H x (or_introl eq_refl)). f_equal.
  apply IH. intros y Hy. apply H. now right.
Qed.

(** X9. For a repository that holds at least one row, the available date
    range consists of two dates, the first not after the second, and
    asking for exactly that range returns every stored observation. *)
Theorem available_range_selects_everything
    (today : date) (df : DataFrame) :
  df <> [] ->
  exists lo hi,
    get_date_range today (Some df) = (Some lo, Some hi)
    /\ date_le lo hi
    /\ get_by_date_range (Some df) (Some lo) (Some hi) = get_all (Some df).
Proof.
  destruct df as [| r df]; [congruence |]. intros _.
  eexists. eexists. split; [reflexivity |].
  destruct (dates_min_lower (fecha_column df) (row_fecha r)) as [Hmin0 Hmin].
  destruct (dates_max_upper (fecha_column df) (row_fecha r)) as [Hmax0 Hmax].
  split; [exact (date_leb_trans _ _ _ Hmin0 Hmax0) |].
  unfold get_by_date_range, get_all. rewrite keep_bounds_filter.
  rewrite filter_all_true; [reflexivity |].
  intros x Hx. unfold in_range. apply andb_true_iff.
  destruct Hx as [<- | Hx]; [split; assumption |].
  split; [apply Hmin | apply Hmax]; now apply in_map.
Qed.

Lemma available_range_selects_everything_witness :
  exists lo hi,
    get_date_range (mkDate 2025 1 1) (Some (frame_of example_series))
    = (Some lo, Some hi)
    /\ get_by_date_range (Some (frame_of example_series)) (Some lo) (Some hi)
       = example_series.
Proof.
  destruct (available_range_selects_everything (mkDate 2025 1 1)
              (frame_of example_series) ltac:(discriminate))
    as (lo & hi & Hr & _ & Hall).
  exists lo, hi. split; [exact Hr |]. rewrite Hall. reflexivity.
Defined.

(** ** Saving new observations *)

Lemma date_eqb_eq (a b : date) : date_eqb a b = true <-> a = b.
Proof.
  destruct a as [ya ma da], b as [yb mb db]. unfold date_eqb. simpl.
  rewrite !andb_true_iff, !Z.eqb_eq. split.
  - intros [[-> ->] ->]. reflexivity.
  - intros H. injection H as -> -> ->. auto.
Qed.

Lemma seen_spec (d : date) (seen : list date) :
  existsb (date_eqb d) seen = true <-> In d seen.
Proof.
  rewrite existsb_exists. split.
  - intros (x & Hx & Heq). apply date_eqb_eq in Heq. now subst.
  - intros H. exists d. split; [exact H | now apply date_eqb_eq].
Qed.

Lemma drop_duplicates_from_in (seen : list date) (df : DataFrame) (r : Row) :
  In r (drop_duplicates_from seen df) -> In r df /\ ~ In (row_fecha r) seen.
Proof.
  revert seen. induction df as [| x df IH]; intros seen; simpl; [contradiction |].
  destruct (existsb (date_eqb (row_fecha x)) seen) eqn:E.
  - intros H. destruct (IH _ H). auto.
  - intros [<- | H].
    + split; [now left |]. intros Hin. apply seen_spec in Hin. congruence.
    + destruct (IH _ H) as [Hin Hns]. split; [now right |].
      intros Hs. apply Hns. now right.
Qed.

Lemma drop_duplicates_from_nodup (seen : list date) (df : DataFrame) :
  NoDup (fecha_column (drop_duplicates_from seen df)).
Proof.
  revert seen. induction df as [| x df IH]; intros seen; simpl; [constructor |].
  destruct (existsb (date_eqb (row_fecha x)) seen); [apply IH |].
  simpl. constructor; [| apply IH].
  intros Hin. apply in_map_iff in Hin. destruct Hin as (r & Hr & Hin).
  apply drop_duplicates_from_in in Hin. destruct Hin as [_ Hns].
  apply Hns. rewrite Hr. now left.
Qed.

Lemma drop_duplicates_from_dates (seen : list date) (df : DataFrame) (d : date) :
  In d (fecha_column df) ->
  In d seen \/ In d (fecha_column (drop_duplicates_from seen df)).
Proof.
  revert seen. induction df as [| x df IH]; intros seen; simpl; [contradiction |].
  intros [<- | Hd].
  - destruct (existsb (date_eqb (row_fecha x)) seen) eqn:E.
    + left. now apply seen_spec.
    + right. now left.
  - destruct (existsb (date_eqb (row_fecha x)) seen) eqn:E.
    + now apply IH.
    + destruct (IH (row_fecha x :: seen) Hd) as [[<- | Hs] | Hk].
      * right. now left.
      * now left.
      * right. now right.
Qed.

Lemma drop_duplicates_from_keeps_prefix
    (seen : list date) (df new_df : DataFrame) (r : Row) :
  NoDup (fecha_column df) ->
  (forall x, In x df -> ~ In (row_fecha x) seen) ->
  In r df -> In r (drop_duplicates_from seen (df ++ new_df)).
Proof.
  revert seen. induction df as [| x df IH]; intros seen Hnd Hseen Hr;
    [contradiction |].
  simpl. inversion Hnd as [| ? ? Hnotin Hnd']; subst.
  destruct (existsb (date_eqb (row_fecha x)) seen) eqn:E.
  - apply seen_spec in E. exfalso. apply (Hseen x); [now left | exact E].
  - destruct Hr as [<- | Hr]; [now left |]. right.
    apply IH; auto.
    intros y Hy [Heq | Hs].
    + apply Hnotin. rewrite Heq. now apply in_map.
    + apply (Hseen y); [now right | exact Hs].
Qed.

(** X10. Saving a non-empty list into a repository that holds a frame
    merges the two: the new frame is sorted by date and has no date
    twice; its rows come from the old frame or from the new data; every
    date of either is present; and when the old frame had no date
    twice, all of its rows are kept, so that for a date already stored
    the stored value wins over the new one. *)
Theorem save_merges_and_keeps_stored_rows
    (to_csv_ok : bool) (df : DataFrame) (data : list TRMData) :
  data <> [] ->
  exists df',
    save to_csv_ok (Some df) data = (to_csv_ok, Some df')
    /\ StronglySorted row_le df'
    /\ NoDup (fecha_column df')
    /\ (forall r, In r df' -> In r df \/ In r (frame_of data))
    /\ (forall d, In d (fecha_column df) \/ In d (map fecha data) ->
                  In d (fecha_column df'))
    /\ (NoDup (fecha_column df) -> forall r, In r df -> In r df').
Proof.
  intros Hd. unfold save. destruct data as [| o data]; [congruence |].
  set (new_df := frame_of (o :: data)).
  eexists. split; [reflexivity |].
  pose proof (sort_values_perm (drop_duplicates (df ++ new_df))) as Hp.
  split; [apply sort_values_sorted |]. split; [| split; [| split]].
  - apply (Permutation_NoDup (Permutation_map row_fecha Hp)).
    apply drop_duplicates_from_nodup.
  - intros r Hr. apply (Permutation_in _ (Permutation_sym Hp)) in Hr.
    apply drop_duplicates_from_in in Hr. destruct Hr as [Hr _].
    apply in_app_or in Hr. exact Hr.
  - intros d Hdate.
    apply (Permutation_in _ (Permutation_map row_fecha Hp)).
    destruct (drop_duplicates_from_dates [] (df ++ new_df) d) as [[] | H];
      [| exact H].
    unfold fecha_column. rewrite map_app. apply in_or_app.
    destruct Hdate as [H | H]; [now left | right].
    unfold new_df. fold (fecha_column (frame_of (o :: data))).
    now rewrite fecha_column_frame_of.
  - intros Hnd r Hr. apply (Permutation_in _ Hp).
    apply drop_duplicates_from_keeps_prefix; auto.
Qed.

Lemma save_merges_and_keeps_stored_rows_witness :
  exists df',
    save true (Some [mkRow (mkDate 2024 1 2) 110])
      [mkTRMData (mkDate 2024 1 2) 999; mkTRMData (mkDate 2024 1 1) 100]
    = (true, Some df')
    /\ In (mkRow (mkDate 2024 1 2) 110) df'
    /\ NoDup (fecha_column df').
Proof.
  destruct (save_merges_and_keeps_stored_rows true
              [mkRow (mkDate 2024 1 2) 110]
              [mkTRMData (mkDate 2024 1 2) 999; mkTRMData (mkDate 2024 1 1) 100]
              ltac:(discriminate))
    as (df' & Hs & _ & Hnd & _ & _ & Hkeep).
  exists df'. split; [exact Hs |]. split; [| exact Hnd].
  apply Hkeep; [repeat constructor; simpl; tauto | now left].
Defined.

(** ** Dates as text: printing and parsing *)

Lemma digit_of_digit_char (k : Z) :
  0 <= k <= 9 -> digit_of (digit_char k) = Some k.
Proof.
  intros Hk.
  assert (H : k = 0 \/ k = 1 \/ k = 2 \/ k = 3 \/ k = 4
              \/ k = 5 \/ k = 6 \/ k = 7 \/ k = 8 \/ k = 9) by lia.
  destruct H as [-> | [-> | [-> | [-> | [-> | [-> | [-> | [-> | [-> | ->]]]]]]]]];
    reflexivity.
Qed.

Lemma digit_range (n : Z) : 0 <= n mod 10 <= 9.
Proof. pose proof (Z.mod_pos_bound n 10). lia. Qed.

Lemma days_in_month_le_31 (y m : Z) : days_in_month y m <= 31.
Proof.
  unfold days_in_month.
  destruct (m =? 2); [destruct (is_leap y); lia |].
  destruct ((m =? 4) || (m =? 6) || (m =? 9) || (m =? 11)); lia.
Qed.

(** X11. Printing a date with [strftime('%Y-%m-%d')] and parsing the text
    with [date.fromisoformat] gives the date back, for every calendar
    date with a four-digit year. *)
Theorem fromisoformat_strftime (d : date) :
  valid_date d -> fromisoformat (strftime d) = Ok d.
Proof.
  intros (Hy & Hm & Hd). destruct d as [y m dd]. simpl in *.
  pose proof (days_in_month_le_31 y m) as H31.
  unfold fromisoformat, strftime.
  rewrite list_ascii_of_string_of_list_ascii. cbn [year month day].
  cbn [digits_value].
  rewrite !digit_of_digit_char by apply digit_range.
  replace (10 * (10 * (10 * (10 * 0 + y / 1000 mod 10) + y / 100 mod 10)
                 + y / 10 mod 10) + y mod 10) with y
    by (clear - Hy; Z.to_euclidean_division_equations; lia).
  replace (10 * (10 * 0 + m / 10 mod 10) + m mod 10) with m
    by (clear - Hm; Z.to_euclidean_division_equations; lia).
  replace (10 * (10 * 0 + dd / 10 mod 10) + dd mod 10) with dd
    by (clear - Hd H31; Z.to_euclidean_division_equations; lia).
  replace (Ascii.eqb dash dash) with true by reflexivity.
  cbn [andb].
  repeat match goal with
         | |- context [?a <=? ?b] =>
             destruct (Z.leb_spec a b); [cbn [andb] | lia]
         end.
  reflexivity.
Qed.

Lemma fromisoformat_strftime_witness :
  fromisoformat (strftime (mkDate 2024 2 29)) = Ok (mkDate 2024 2 29).
Proof.
  apply fromisoformat_strftime. unfold valid_date. simpl.
  change (days_in_month 2024 2) with 29. lia.
Defined.

(** ** Updating the repository from dictionaries *)

#[local] Arguments fromisoformat : simpl never.
#[local] Arguments strftime : simpl never.

(** X12. The dictionaries produced by [TRMData.to_dict] are accepted by
    [update_data]: for observations with calendar dates of four-digit
    years, the list handed to the repository is the original list. *)
Theorem update_data_accepts_to_dict (data : list TRMData) :
  Forall (fun o => valid_date (fecha o)) data ->
  update_data_items (map TRMData_to_dict data) = Ok data.
Proof.
  induction 1 as [| o data Ho _ IH]; [reflexivity |].
  cbn [map update_data_items TRMData_to_dict dict_fecha dict_trm].
  rewrite (fromisoformat_strftime _ Ho).
  cbn [bind]. rewrite IH. cbn [bind]. destruct o. reflexivity.
Qed.

Lemma update_data_accepts_to_dict_witness :
  update_data_items (map TRMData_to_dict [mkTRMData (mkDate 2024 1 31) 4000])
  = Ok [mkTRMData (mkDate 2024 1 31) 4000].
Proof.
  apply update_data_accepts_to_dict. repeat constructor; simpl; try lia.
  change (days_in_month 2024 1) with 31. lia.
Defined.

(** X13. One record whose date string cannot be parsed makes
    [update_data] of the application service raise: no list reaches
    [repository.save], whatever the other records are. *)
Theorem update_data_bad_date_aborts
    (before after : list TRMDict) (bad : string) (value : Q) :
  raises (fromisoformat bad) ->
  raises (update_data_items (before ++ mkTRMDict (inl bad) value :: after)).
Proof.
  intros [e He]. induction before as [| item before IH]; simpl.
  - rewrite He. eexists. reflexivity.
  - destruct (match dict_fecha item with
              | inl s => fromisoformat s
              | inr d => Ok d
              end) as [d | e']; simpl; [| eexists; reflexivity].
    destruct IH as [e'' ->]. eexists. reflexivity.
Qed.

Lemma update_data_bad_date_aborts_witness :
  raises (update_data_items
            [mkTRMDict (inr (mkDate 2024 1 1)) 4000;
             mkTRMDict (inl "01/02/2024"%string) 4010]).
Proof.
  apply (update_data_bad_date_aborts
           [mkTRMDict (inr (mkDate 2024 1 1)) 4000] [] "01/02/2024"%string 4010).
  eexists. reflexivity.
Defined.

Lemma python_app_update_data_items_app
    (to_datetime : string -> result date) (l1 l2 : list TRMDict) :
  PythonApp.update_data_items to_datetime (l1 ++ l2)
  = PythonApp.update_data_items to_datetime l1
    ++ PythonApp.update_data_items to_datetime l2.
Proof.
  induction l1 as [| item l1 IH]; [reflexivity |].
  simpl. rewrite IH.
  destruct (dict_fecha item) as [s | d]; [| reflexivity].
  destruct (fromisoformat s); [reflexivity |].
  destruct (to_datetime s); reflexivity.
Qed.

(** X14. In the application service of [python_app], a record whose date
    string is rejected by both parsers is skipped and the update goes
    on: the list handed to the repository is the one obtained from the
    records before it followed by the one from the records after it. *)
Theorem python_app_update_data_skips_bad_date
    (to_datetime : string -> result date)
    (before after : list TRMDict) (bad : string) (value : Q) :
  raises (fromisoformat bad) -> raises (to_datetime bad) ->
  PythonApp.update_data_items to_datetime
    (before ++ mkTRMDict (inl bad) value :: after)
  = PythonApp.update_data_items to_datetime before
    ++ PythonApp.update_data_items to_datetime after.
Proof.
  intros [e He] [e' He'].
  rewrite python_app_update_data_items_app. f_equal.
  simpl. rewrite He, He'. reflexivity.
Qed.

Lemma python_app_update_data_skips_bad_date_witness :
  PythonApp.update_data_items fromisoformat
    [mkTRMDict (inr (mkDate 2024 1 1)) 4000;
     mkTRMDict (inl "01/02/2024"%string) 4010;
     mkTRMDict (inl "2024-01-03"%string) 4020]
  = [mkTRMData (mkDate 2024 1 1) 4000; mkTRMData (mkDate 2024 1 3) 4020].
Proof.
  etransitivity;
    [exact (python_app_update_data_skips_bad_date fromisoformat
              [mkTRMDict (inr (mkDate 2024 1 1)) 4000]
              [mkTRMDict (inl "2024-01-03"%string) 4020]
              "01/02/2024"%string 4010
              ltac:(eexists; reflexivity) ltac:(eexists; reflexivity))
    | vm_compute; reflexivity].
Defined.

(** ** Bounds in the application service of [python_app] *)

(** X15. In [get_trm_data] of [python_app], a bound that both parsers
    reject discards both bounds, also the one that could be parsed: the
    whole stored series is returned and nothing is raised. *)
Theorem python_app_bad_bound_discards_both
    (to_datetime : string -> result date)
    (repository : option date -> option date -> list TRMData)
    (bad : string) (other : option string) :
  bad <> EmptyString ->
  raises (fromisoformat bad) -> raises (to_datetime bad) ->
  PythonApp.get_trm_data to_datetime repository (Some bad) other
  = map to_dict (repository None None)
  /\ PythonApp.get_trm_data to_datetime repository other (Some bad)
     = map to_dict (repository None None).
Proof.
  intros Hne [e He] [e' He'].
  assert (Hg : given (Some bad) = Some bad) by (destruct bad; [congruence | reflexivity]).
  unfold PythonApp.get_trm_data, PythonApp.parse_bounds,
    PythonApp.fallback_bound, parse_bound.
  rewrite Hg, He, He'. simpl. split; [reflexivity |].
  destruct (given other) as [s |]; simpl.
  - destruct (fromisoformat s); simpl; destruct (to_datetime s); reflexivity.
  - reflexivity.
Qed.

Lemma python_app_bad_bound_discards_both_witness :
  PythonApp.get_trm_data fromisoformat
    (get_by_date_range (Some (frame_of example_series)))
    (Some "2024-01-02"%string) (Some "not-a-date"%string)
  = frame_of example_series.
Proof.
  destruct (python_app_bad_bound_discards_both fromisoformat
              (get_by_date_range (Some (frame_of example_series)))
              "not-a-date"%string (Some "2024-01-02"%string)
              ltac:(discriminate)
              ltac:(eexists; reflexivity) ltac:(eexists; reflexivity))
    as [_ H].
  etransitivity; [exact H | reflexivity].
Defined.

(** X16. Whenever [get_trm_data] of the application service returns
    without raising, [get_trm_data] of [python_app] returns the same
    rows for the same arguments and repository. *)
Theorem python_app_get_trm_data_agrees
    (to_datetime : string -> result date)
    (repository : option date -> option date -> list TRMData)
    (start_date end_date : option string) (rows : list Row) :
  get_trm_data repository start_date end_date = Ok rows ->
  PythonApp.get_trm_data to_datetime repository start_date end_date = rows.
Proof.
  unfold get_trm_data, PythonApp.get_trm_data, PythonApp.parse_bounds.
  destruct (parse_bound start_date) as [s | e]; simpl; [| discriminate].
  destruct (parse_bound end_date) as [e | e']; simpl; [| discriminate].
  intros H. now injection H.
Qed.

Lemma python_app_get_trm_data_agrees_witness :
  PythonApp.get_trm_data fromisoformat
    (get_by_date_range (Some (frame_of example_series)))
    (Some "2024-01-02"%string) None
  = [mkRow (mkDate 2024 1 2) 110; mkRow (mkDate 2024 1 3) 99].
Proof.
  apply python_app_get_trm_data_agrees. reflexivity.
Defined.

(** ** Plot annotations *)

Section FirstBestFacts.
Variable better_eq : Q -> Q -> bool.
Hypothesis better_total : forall a b, better_eq a b = true \/ better_eq b a = true.
Hypothesis better_trans :
  forall a b c, better_eq a b = true -> better_eq b c = true -> better_eq a c = true.

Lemma first_best_from_spec (vs : list Q) (i best : nat) (best_v : Q) :
  (first_best_from better_eq vs i best best_v = best
   /\ forall v, In v vs -> better_eq best_v v = true)
  \/ (exists k,
        (k < length vs)%nat
        /\ first_best_from better_eq vs i best best_v = (i + k)%nat
        /\ better_eq best_v (nth k vs 0%Q) = false
        /\ (forall j, (j < k)%nat ->
              better_eq (nth j vs 0%Q) (nth k vs 0%Q) = false)
        /\ (forall v, In v vs -> better_eq (nth k vs 0%Q) v = true)).
Proof.
  revert i best best_v. induction vs as [| v vs IH]; intros i best best_v.
  - left. split; [reflexivity | contradiction].
  - simpl first_best_from. destruct (better_eq best_v v) eqn:E.
    + destruct (IH (S i) best best_v)
        as [[Hr Hall] | (k & Hk & Hr & Hlt & Hbefore & Hall)].
      * left. split; [exact Hr |]. intros x [<- | Hx]; auto.
      * right. exists (S k).
        split; [simpl; lia |]. split; [rewrite Hr; lia |].
        split; [exact Hlt |]. split.
        -- intros j Hj. destruct j as [| j]; [| apply Hbefore; lia].
           simpl. destruct (better_eq v (nth k vs 0%Q)) eqn:Ev; [| reflexivity].
           rewrite (better_trans _ _ _ E Ev) in Hlt. discriminate.
        -- intros x [<- | Hx]; [| now apply Hall].
           simpl. destruct (better_total (nth k vs 0%Q) v) as [H | H]; [exact H |].
           rewrite (better_trans _ _ _ E H) in Hlt. discriminate.
    + assert (Hvb : better_eq v best_v = true)
        by (destruct (better_total v best_v); congruence).
      destruct (IH (S i) i v)
        as [[Hr Hall] | (k & Hk & Hr & Hlt & Hbefore & Hall)].
      * right. exists O.
        split; [simpl; lia |]. split; [rewrite Hr; lia |].
        split; [exact E |]. split; [intros j Hj; lia |].
        intros x [<- | Hx]; [| now apply Hall].
        simpl. destruct (better_total v v); assumption.
      * right. exists (S k).
        split; [simpl; lia |]. split; [rewrite Hr; lia |].
        split; [| split].
        -- simpl.
           destruct (better_eq best_v (nth k vs 0%Q)) eqn:Eb; [| reflexivity].
           destruct (better_total (nth k vs 0%Q) v) as [H | H].
           ++ rewrite (better_trans _ _ _ Eb H) in E. discriminate.
           ++ congruence.
        -- intros j Hj. destruct j as [| j]; [exact Hlt | apply Hbefore; lia].
        -- intros x [<- | Hx]; [| now apply Hall].
           simpl. destruct (better_total (nth k vs 0%Q) v); congruence.
Qed.

Lemma first_best_spec (vs : list Q) :
  vs <> [] ->
  (first_best better_eq vs < length vs)%nat
  /\ (forall v, In v vs ->
        better_eq (nth (first_best better_eq vs) vs 0%Q) v = true)
  /\ (forall j, (j < first_best better_eq vs)%nat ->
        better_eq (nth j vs 0%Q) (nth (first_best better_eq vs) vs 0%Q) = false).
Proof.
  destruct vs as [| v vs]; [congruence |]. intros _.
  unfold first_best.
  destruct (first_best_from_spec vs 1 O v)
    as [[Hr Hall] | (k & Hk & Hr & Hlt & Hbefore & Hall)]; rewrite Hr.
  - split; [simpl; lia |]. split; [| intros j Hj; lia].
    intros x [<- | Hx]; [| now apply Hall].
    simpl. destruct (better_total v v); assumption.
  - change (1 + k)%nat with (S k).
    split; [simpl; lia |]. split.
    + intros x [<- | Hx]; [| now apply Hall].
      simpl. destruct (better_total (nth k vs 0%Q) v); congruence.
    + intros j Hj. destruct j as [| j]; [exact Hlt | apply Hbefore; lia].
Qed.
End FirstBestFacts.

Lemma Qle_bool_total (a b : Q) : Qle_bool a b = true \/ Qle_bool b a = true.
Proof.
  rewrite !Qle_bool_iff. destruct (Qlt_le_dec a b) as [H | H];
    [left; now apply Qlt_le_weak | now right].
Qed.

Lemma Qle_bool_trans (a b c : Q) :
  Qle_bool a b = true -> Qle_bool b c = true -> Qle_bool a c = true.
Proof. rewrite !Qle_bool_iff. apply Qle_trans. Qed.

Lemma trm_column_nth (df : DataFrame) (i : nat) :
  (i < length df)%nat -> nth i (trm_column df) 0%Q = row_trm (nth i df row0).
Proof.
  intros Hi. unfold trm_column.
  rewrite (nth_indep _ 0%Q (row_trm row0)) by (now rewrite length_map).
  apply map_nth.
Qed.

Lemma sorted_position_earliest (df : DataFrame) (p : nat) (r : Row) :
  StronglySorted row_le df -> (p < length df)%nat -> In r df ->
  (forall j, (j < p)%nat -> nth j df row0 <> r) ->
  date_le (row_fecha (nth p df row0)) (row_fecha r).
Proof.
  intros Hs Hp Hr Hbefore.
  destruct (In_nth df r row0 Hr) as (j & Hj & <-).
  destruct (Nat.lt_trichotomy j p) as [Hlt | [-> | Hgt]].
  - exfalso. now apply (Hbefore j Hlt).
  - apply date_leb_refl.
  - apply (sorted_nth row_le df row0 p j Hs). lia.
Qed.

(** X17. For a non-empty series the figure plots the date-sorted series
    and annotates one of its rows as minimum and one as maximum: no row
    has a smaller, respectively larger, value, and among the rows with
    that value the annotated one has the earliest date. *)
Theorem plot_annotations_first_extremes (data : list TRMData) :
  data <> [] ->
  exists fig,
    generate_plot data = Some fig
    /\ line fig = sort_values (frame_of data)
    /\ In (min_annotation fig) (line fig)
    /\ In (max_annotation fig) (line fig)
    /\ (forall r, In r (line fig) ->
          (row_trm (min_annotation fig) <= row_trm r)%Q
          /\ (row_trm r <= row_trm (max_annotation fig))%Q)
    /\ (forall r, In r (line fig) ->
          (row_trm r == row_trm (min_annotation fig))%Q ->
          date_le (row_fecha (min_annotation fig)) (row_fecha r))
    /\ (forall r, In r (line fig) ->
          (row_trm r == row_trm (max_annotation fig))%Q ->
          date_le (row_fecha (max_annotation fig)) (row_fecha r)).
Proof.
  intros Hd. unfold generate_plot.
  destruct data as [| o0 data0] eqn:Edata; [congruence |]. rewrite <- Edata in *.
  eexists. split; [reflexivity |]. cbn [line min_annotation max_annotation].
  set (df := sort_values (frame_of data)).
  assert (Hs : StronglySorted row_le df) by apply sort_values_sorted.
  assert (Hne : trm_column df <> []) by (apply trm_column_nonempty; exact Hd).
  assert (Hlen : length (trm_column df) = length df)
    by (unfold trm_column; apply length_map).
  destruct (first_best_spec Qle_bool Qle_bool_total Qle_bool_trans
              (trm_column df) Hne) as (Hp & Hmin & Hminfirst).
  destruct (first_best_spec (fun a b => Qle_bool b a)
              (fun a b => Qle_bool_total b a)
              (fun a b c H1 H2 => Qle_bool_trans c b a H2 H1)
              (trm_column df) Hne) as (Hq & Hmax & Hmaxfirst).
  fold (idxmin (trm_column df)) in Hp, Hmin, Hminfirst.
  fold (idxmax (trm_column df)) in Hq, Hmax, Hmaxfirst.
  rewrite Hlen in Hp, Hq.
  rewrite trm_column_nth in Hmin, Hminfirst, Hmax, Hmaxfirst by assumption.
  split; [reflexivity |].
  split; [now apply nth_In |]. split; [now apply nth_In |].
  split; [| split].
  - intros r Hr. split; apply Qle_bool_iff.
    + apply Hmin. now apply in_map.
    + apply (Hmax (row_trm r)). now apply in_map.
  - intros r Hr Heq.
    apply sorted_position_earliest; auto.
    intros j Hj Hjr. specialize (Hminfirst j Hj).
    rewrite trm_column_nth in Hminfirst by lia. rewrite Hjr in Hminfirst.
    assert (H : Qle_bool (row_trm r) (row_trm (nth (idxmin (trm_column df)) df row0))
                = true) by (apply Qle_bool_iff; rewrite Heq; apply Qle_refl).
    congruence.
  - intros r Hr Heq.
    apply sorted_position_earliest; auto.
    intros j Hj Hjr. specialize (Hmaxfirst j Hj). cbv beta in Hmaxfirst.
    rewrite trm_column_nth in Hmaxfirst by lia. rewrite Hjr in Hmaxfirst.
    assert (H : Qle_bool (row_trm (nth (idxmax (trm_column df)) df row0)) (row_trm r)
                = true) by (apply Qle_bool_iff; rewrite Heq; apply Qle_refl).
    congruence.
Qed.

Lemma plot_annotations_first_extremes_witness :
  exists fig,
    generate_plot example_series = Some fig
    /\ min_annotation fig = mkRow (mkDate 2024 1 3) 99
    /\ max_annotation fig = mkRow (mkDate 2024 1 2) 110.
Proof.
  destruct (plot_annotations_first_extremes example_series ltac:(discriminate))
    as (fig & Hfig & _).
  exists fig. split; [exact Hfig |].
  injection Hfig as <-. split; reflexivity.
Defined.

(** ** The data loader and the domain service agree *)

Lemma insert_sorted_id {A : Type} (leb : A -> A -> bool) (x : A) (l : list A) :
  Forall (fun y => leb x y = true) l -> insert leb x l = x :: l.
Proof.
  intros H. destruct l as [| y l]; [reflexivity |].
  simpl. inversion H as [| ? ? Hy _]; subst. now rewrite Hy.
Qed.

Lemma isort_sorted_id {A : Type} (leb : A -> A -> bool) (l : list A) :
  StronglySorted (fun a b => leb a b = true) l -> isort leb l = l.
Proof.
  induction 1 as [| x l Hs IH Hx]; [reflexivity |].
  simpl. rewrite IH. now apply insert_sorted_id.
Qed.

Lemma sort_values_sorted_id (df : DataFrame) :
  StronglySorted row_le df -> sort_values df = df.
Proof. apply isort_sorted_id. Qed.

Lemma frame_of_of_row (df : DataFrame) : frame_of (map of_row df) = df.
Proof.
  unfold frame_of. rewrite map_map.
  induction df as [| [f v] df IH]; simpl; [reflexivity |]. now rewrite IH.
Qed.

Lemma sorted_frame_of_rows (df : DataFrame) :
  StronglySorted row_le df -> sort_values (frame_of (map of_row df)) = df.
Proof. intros H. rewrite frame_of_of_row. now apply sort_values_sorted_id. Qed.

Lemma keep_from_sorted (d : option date) (df : DataFrame) :
  StronglySorted row_le df -> StronglySorted row_le (keep_from d df).
Proof. destruct d; simpl; [apply StronglySorted_filter | trivial]. Qed.

Lemma keep_until_sorted (d : option date) (df : DataFrame) :
  StronglySorted row_le df -> StronglySorted row_le (keep_until d df).
Proof. destruct d; simpl; [apply StronglySorted_filter | trivial]. Qed.

Lemma loader_get_data_range_sorted
    (to_datetime : string -> result date) (df fdf : DataFrame)
    (start_date end_date : option string) :
  StronglySorted row_le df ->
  loader_get_data_range to_datetime (Some df) start_date end_date = Ok (Some fdf) ->
  StronglySorted row_le fdf.
Proof.
  intros Hs. unfold loader_get_data_range.
  destruct (given start_date) as [s |]; simpl.
  - destruct (to_datetime s) as [d |]; simpl; [| discriminate].
    destruct (given end_date) as [e |]; simpl.
    + destruct (to_datetime e) as [d' |]; simpl; [| discriminate].
      intros H. injection H as <-.
      now apply (keep_until_sorted (Some d')), (keep_from_sorted (Some d)).
    + intros H. injection H as <-. now apply (keep_from_sorted (Some d)).
  - destruct (given end_date) as [e |]; simpl.
    + destruct (to_datetime e) as [d' |]; simpl; [| discriminate].
      intros H. injection H as <-. now apply (keep_until_sorted (Some d')).
    + intros H. injection H as <-. exact Hs.
Qed.

(** X18. On a loader whose frame is sorted by date (as [load_data]
    leaves it), [TRMDataLoader.get_statistics] returns for a date range
    the dictionary that [TRMStatistics.to_dict] gives for the statistics
    of the domain service on the rows of that range, and [None] where
    the service returns [None]. *)
Theorem loader_statistics_agree
    (to_datetime : string -> result date) (df fdf : DataFrame)
    (start_date end_date : option string) :
  StronglySorted row_le df ->
  loader_get_data_range to_datetime (Some df) start_date end_date = Ok (Some fdf) ->
  loader_get_statistics to_datetime (Some df) start_date end_date
  = Ok (option_map TRMStatistics_to_dict (calculate_statistics (map of_row fdf))).
Proof.
  intros Hs Hr.
  pose proof (loader_get_data_range_sorted _ _ _ _ _ Hs Hr) as Hf.
  unfold loader_get_statistics. rewrite Hr. cbn [bind].
  destruct fdf as [| r fdf']; [reflexivity |].
  unfold calculate_statistics. cbn [map].
  change (of_row r :: map of_row fdf') with (map of_row (r :: fdf')).
  rewrite (sorted_frame_of_rows _ Hf). reflexivity.
Qed.

Lemma loader_statistics_agree_witness :
  loader_get_statistics fromisoformat (Some (frame_of example_series))
    (Some "2024-01-02"%string) None
  = Ok (option_map TRMStatistics_to_dict
          (calculate_statistics
             [mkTRMData (mkDate 2024 1 2) 110; mkTRMData (mkDate 2024 1 3) 99])).
Proof.
  apply (loader_statistics_agree fromisoformat (frame_of example_series)
           [mkRow (mkDate 2024 1 2) 110; mkRow (mkDate 2024 1 3) 99]).
  - repeat constructor.
  - vm_compute. reflexivity.
Defined.

(** X19. On a loader whose frame is sorted by date,
    [TRMDataLoader.find_extreme_variations] selects for a date range the
    rows that the domain service reports for the rows of that range,
    with the same percent changes and in the same order. *)
Theorem loader_variations_agree
    (to_datetime : string -> result date) (df fdf : DataFrame)
    (start_date end_date : option string) (threshold_pct : npfloat) :
  StronglySorted row_le df ->
  loader_get_data_range to_datetime (Some df) start_date end_date = Ok (Some fdf) ->
  exists rows,
    loader_find_extreme_variations to_datetime threshold_pct (Some df)
      start_date end_date = Ok rows
    /\ find_extreme_variations (map of_row fdf) threshold_pct
       = map (fun row => mkTRMVariation (row_fecha (fst row))
                                        (row_trm (fst row)) (snd row))
             (match rows with Some rows => rows | None => [] end).
Proof.
  intros Hs Hr.
  pose proof (loader_get_data_range_sorted _ _ _ _ _ Hs Hr) as Hf.
  unfold loader_find_extreme_variations. rewrite Hr. cbn [bind].
  destruct fdf as [| r fdf']; [eexists; split; reflexivity |].
  eexists. split; [reflexivity |].
  unfold find_extreme_variations. cbn [map].
  change (of_row r :: map of_row fdf') with (map of_row (r :: fdf')).
  rewrite (sorted_frame_of_rows _ Hf).
  unfold append_variation.
  rewrite (fold_left_append_if
             (fun row : Row * npfloat => negb (isna (snd row)))
             (fun row : Row * npfloat =>
                mkTRMVariation (row_fecha (fst row)) (row_trm (fst row)) (snd row))).
  cbn [app].
  rewrite (filter_implied _ (fun row : Row * npfloat =>
                               fgtb (fabs (snd row)) threshold_pct)).
  - reflexivity.
  - intros [r0 p] Hp. cbn [snd] in *. now rewrite (exceeds_not_na threshold_pct p Hp).
Qed.

Lemma loader_variations_agree_witness :
  exists rows,
    loader_find_extreme_variations fromisoformat (Fin 5)
      (Some (frame_of example_series)) None None = Ok rows
    /\ find_extreme_variations example_series (Fin 5)
       = map (fun row => mkTRMVariation (row_fecha (fst row))
                                        (row_trm (fst row)) (snd row))
             (match rows with Some rows => rows | None => [] end).
Proof.
  apply (loader_variations_agree fromisoformat (frame_of example_series)
           (frame_of example_series) None None (Fin 5)).
  - repeat constructor.
  - reflexivity.
Defined.

(** X20. On a loader whose frame is sorted by date,
    [TRMDataLoader.calculate_moving_average] and the domain service
    agree on the rows of a date range: both raise for a negative window,
    and otherwise the service returns the loader's rows one by one, with
    the moving average absent where the loader's column holds NaN. *)
Theorem loader_moving_average_agree
    (to_datetime : string -> result date) (df fdf : DataFrame)
    (start_date end_date : option string) (window : Z) :
  StronglySorted row_le df ->
  loader_get_data_range to_datetime (Some df) start_date end_date = Ok (Some fdf) ->
  calculate_moving_average (map of_row fdf) window
  = (rows <- loader_calculate_moving_average to_datetime window (Some df)
               start_date end_date ;;
     Ok (map (fun row => mkTRMMovingAverage (row_fecha (fst row))
                           (row_trm (fst row))
                           (if isna (snd row) then None else Some (snd row))
                           window)
             (match rows with Some rows => rows | None => [] end))).
Proof.
  intros Hs Hr.
  pose proof (loader_get_data_range_sorted _ _ _ _ _ Hs Hr) as Hf.
  unfold loader_calculate_moving_average. rewrite Hr. cbn [bind].
  destruct fdf as [| r fdf']; [reflexivity |].
  unfold calculate_moving_average. cbn [map].
  change (of_row r :: map of_row fdf') with (map of_row (r :: fdf')).
  rewrite (sorted_frame_of_rows _ Hf).
  destruct (rolling_mean (trm_column (r :: fdf')) window) as [ma | e];
    cbn [bind]; [| reflexivity].
  unfold append_moving_average.
  rewrite (fold_left_append
             (fun row : Row * npfloat =>
                mkTRMMovingAverage (row_fecha (fst row)) (row_trm (fst row))
                  (if isna (snd row) then None else Some (snd row)) window)).
  reflexivity.
Qed.

Lemma loader_moving_average_agree_witness :
  calculate_moving_average example_series (-1)
  = (rows <- loader_calculate_moving_average fromisoformat (-1)
               (Some (frame_of example_series)) None None ;;
     Ok (map (fun row => mkTRMMovingAverage (row_fecha (fst row))
                           (row_trm (fst row))
                           (if isna (snd row) then None else Some (snd row))
                           (-1))
             (match rows with Some rows => rows | None => [] end))).
Proof.
  apply (loader_moving_average_agree fromisoformat (frame_of example_series)
           (frame_of example_series) None None (-1)).
  - repeat constructor.
  - reflexivity.
Defined.

(** * The analytics in binary64 *)

(** ** Order of binary64 numbers *)

Lemma SFcompare_nan_r (x : spec_float) : SFcompare x S754_nan = None.
Proof. destruct x; reflexivity. Qed.

Lemma SFeqb_refl_nan (x : spec_float) : SFeqb x x = false -> x = S754_nan.
Proof.
  destruct x as [s | s | | s m e]; unfold SFeqb; simpl; try discriminate;
    try reflexivity.
  - destruct s; discriminate.
  - destruct s; rewrite Z.compare_refl, Pos.compare_cont_refl; discriminate.
Qed.

Lemma is_nan_spec (x : float) : is_nan x = true -> Prim2SF x = S754_nan.
Proof.
  unfold is_nan. rewrite FloatAxioms.eqb_spec. intros H.
  apply SFeqb_refl_nan. now apply negb_true_iff.
Qed.








Lemma float_leb_not_nan (x y : float) :
  (x <=? y)%float = true -> is_nan x = false /\ is_nan y = false.
Proof.
  rewrite leb_spec. intros H.
  split; (destruct (is_nan _) eqn:E; [| reflexivity]);
    apply is_nan_spec in E; rewrite E in H.
  - discriminate.
  - unfold SFleb in H. rewrite SFcompare_nan_r in H. discriminate.
Qed.

(** A comparison with [NaN] is false and any arithmetic on [NaN] gives
    [NaN]: the first row of a percent change is [NaN] and never passes a
    threshold. *)
Lemma ltb_abs_nan (t x : float) :
  is_nan x = true -> (t <? abs x)%float = false.
Proof.
  intros H. apply is_nan_spec in H.
  rewrite ltb_spec, abs_spec, H. unfold SFltb. simpl.
  now rewrite SFcompare_nan_r.
Qed.

Lemma div_nan_r (x : float) : (x / nan)%float = nan.
Proof.
  apply Prim2SF_inj. rewrite div_spec.
  change (Prim2SF nan) with S754_nan.
  unfold SF64div, SFdiv. destruct (Prim2SF x); reflexivity.
Qed.

(** ** The sorted frame *)

Lemma binary64_sort_values_perm (df : Binary64.DataFrame) :
  Permutation df (Binary64.sort_values df).
Proof. apply isort_perm. Qed.

Lemma binary64_sort_values_sorted (df : Binary64.DataFrame) :
  StronglySorted Binary64.row_le (Binary64.sort_values df).
Proof.
  apply isort_sorted.
  - intros x y. apply date_leb_total.
  - intros x y z. apply date_leb_trans.
Qed.

Lemma binary64_sorted_frame_length (data : list Binary64.TRMData) :
  length (Binary64.sort_values (Binary64.frame_of data)) = length data.
Proof.
  unfold Binary64.sort_values. rewrite isort_length. apply length_map.
Qed.


(** ** Statistics: extremes are selections *)










(** The sum of three equal values does not depend on how the additions are
    grouped. *)
Example sum_of_three_tenths_grouping :
  let x := Binary64.tenth in
  (Binary64.series_sum [x; x; x] = x + (x + x))%float.
Proof. reflexivity. Qed.

(** The mean can also fall below min: three observations of 4000.7 have the
    mean 4000.6999999999994. *)
Example statistics_mean_below_min :
  exists st,
    Binary64.calculate_statistics
      [Binary64.obs 2024 1 1 0x1.f416666666666p+11;
       Binary64.obs 2024 1 2 0x1.f416666666666p+11;
       Binary64.obs 2024 1 3 0x1.f416666666666p+11]
    = Some st
    /\ (Binary64.avg_value st <? Binary64.min_value st)%float = true.
Proof. eexists. split; reflexivity. Qed.

(** The median of an even number of values is the rounded mean of the two
    middle ones, and the sum can overflow: for two observations of 2^1023
    the median is [+inf], above max. *)
Example statistics_even_median_above_max :
  exists st,
    Binary64.calculate_statistics
      [Binary64.obs 2024 1 1 0x1p+1023; Binary64.obs 2024 1 2 0x1p+1023]
    = Some st
    /\ Binary64.max_value st = 0x1p+1023%float
    /\ Binary64.median_value st = infinity
    /\ (Binary64.max_value st <? Binary64.median_value st)%float = true.
Proof. eexists. split; [reflexivity |]. repeat split. Qed.

(** ** Extreme variations *)

Lemma binary64_shift_length (xs : list float) :
  length (Binary64.shift xs) = length xs.
Proof. unfold Binary64.shift. rewrite length_firstn. simpl. lia. Qed.

Lemma binary64_pct_change_length (vs : list float) :
  length (Binary64.pct_change vs) = length vs.
Proof.
  unfold Binary64.pct_change.
  rewrite length_map, length_combine, binary64_shift_length. lia.
Qed.

Lemma binary64_pct_change_nth (vs : list float) (i : nat) :
  (i < length vs)%nat ->
  nth i (Binary64.pct_change vs) nan
  = (nth i vs 0 / match i with O => nan | S j => nth j vs 0 end - 1)%float.
Proof.
  intros Hi. unfold Binary64.pct_change.
  pose (h := fun '(x, prev) => (x / prev - 1)%float).
  rewrite (nth_indep _ nan (h (0%float, nan)))
    by (rewrite length_map, length_combine, binary64_shift_length; lia).
  change (nth i (map h (combine vs (Binary64.shift vs))) (h (0%float, nan))
          = (nth i vs 0 / match i with O => nan | S j => nth j vs 0 end - 1)%float).
  rewrite (map_nth h), combine_nth by (now rewrite binary64_shift_length).
  unfold h, Binary64.shift. rewrite nth_firstn_lt by assumption.
  destruct i as [| j]; [reflexivity |].
  simpl nth at 2.
  rewrite (nth_indep vs nan 0%float) by lia. reflexivity.
Qed.

Lemma binary64_var_pct_nth (vs : list float) (i : nat) :
  (i < length vs)%nat ->
  nth i (map (fun p => (p * 100)%float) (Binary64.pct_change vs)) nan
  = match i with O => nan | S _ => Binary64.percent_change_at vs i end.
Proof.
  intros Hi.
  pose (F := fun p => (p * 100)%float).
  change (nth i (map F (Binary64.pct_change vs)) (F nan)
          = match i with O => nan | S _ => Binary64.percent_change_at vs i end).
  rewrite (map_nth F), binary64_pct_change_nth by assumption. unfold F.
  destruct i as [| j].
  - rewrite div_nan_r. reflexivity.
  - unfold Binary64.percent_change_at. simpl. now rewrite Nat.sub_0_r.
Qed.

(** The loop of [find_extreme_variations], row by row of the sorted frame:
    the percent change of row 0 is [NaN], which passes no threshold, and a
    row that passes the threshold passes the [isna] guard of the loop. *)
Lemma binary64_find_extreme_variations_rows
    (data : list Binary64.TRMData) (t : float) :
  Binary64.find_extreme_variations data t
  = map (Binary64.variation_at (Binary64.sort_values (Binary64.frame_of data)))
        (filter (fun i =>
                   (t <? abs (Binary64.percent_change_at
                                (Binary64.trm_column
                                   (Binary64.sort_values (Binary64.frame_of data)))
                                i))%float)
                (seq 1 (length data - 1))).
Proof.
  unfold Binary64.find_extreme_variations.
  destruct data as [| o0 data0] eqn:Edata; [reflexivity |].
  rewrite <- Edata.
  assert (Hn : length data = S (length data0)) by now rewrite Edata.
  set (df := Binary64.sort_values (Binary64.frame_of data)).
  set (vs := Binary64.trm_column df).
  set (var_pct := map (fun p => (p * 100)%float) (Binary64.pct_change vs)).
  assert (Hdf : length df = length data) by apply binary64_sorted_frame_length.
  assert (Hvs : length vs = length data)
    by (unfold vs, Binary64.trm_column; now rewrite length_map).
  assert (Hvp : length var_pct = length data)
    by (unfold var_pct; now rewrite length_map, binary64_pct_change_length).
  unfold Binary64.append_variation.
  rewrite (fold_left_append_if
             (fun row : Binary64.Row * float => negb (is_nan (snd row)))
             (fun row : Binary64.Row * float =>
                Binary64.mkTRMVariation (Binary64.row_fecha (fst row))
                  (Binary64.row_trm (fst row)) (snd row))).
  simpl app.
  rewrite (filter_implied _
             (fun row : Binary64.Row * float => (t <? abs (snd row))%float)).
  2:{ intros [r p] Hp. simpl in *.
      destruct (is_nan p) eqn:E; [| reflexivity].
      rewrite (ltb_abs_nan t p E) in Hp. discriminate. }
  rewrite (combine_nth_seq df var_pct Binary64.row0 nan) by lia.
  rewrite filter_map_comm, map_map. rewrite Hdf, Hn. simpl fst. simpl snd.
  replace (S (length data0) - 1)%nat with (length data0) by lia.
  change (seq 0 (S (length data0))) with (0%nat :: seq 1 (length data0)).
  cbn [filter].
  replace (t <? abs (nth 0 var_pct nan))%float with false.
  2:{ unfold var_pct. rewrite binary64_var_pct_nth by lia.
      symmetry. now apply ltb_abs_nan. }
  rewrite (filter_ext_in
             (fun i => (t <? abs (nth i var_pct nan))%float)
             (fun i => (t <? abs (Binary64.percent_change_at vs i))%float)).
  2:{ intros i Hi. apply in_seq in Hi. unfold var_pct.
      rewrite binary64_var_pct_nth by lia.
      destruct i as [| j]; [lia | reflexivity]. }
  apply map_ext_in. intros i Hi.
  apply filter_In in Hi. destruct Hi as [Hi _]. apply in_seq in Hi.
  unfold Binary64.variation_at. f_equal. unfold var_pct.
  rewrite binary64_var_pct_nth by lia.
  destruct i as [| j]; [lia | reflexivity].
Qed.

(** C2. For a series of numbers, the extreme variations are exactly the
    records of the rows i >= 1 of the date-sorted series (a rearrangement
    of the input, ascending by date) whose day-over-day percent change
    (value[i] / value[i-1] - 1) * 100, as the code computes it in binary64,
    exceeds the threshold strictly in absolute value; row 0 never appears,
    and the records come in the chronological order of the series. *)
Theorem extreme_variations_binary64 (data : list Binary64.TRMData)
    (threshold_pct : float) :
  Forall (fun o => is_nan (Binary64.valor o) = false) data ->
  let df := Binary64.sort_values (Binary64.frame_of data) in
  let vs := Binary64.trm_column df in
  let result := Binary64.find_extreme_variations data threshold_pct in
  Permutation (Binary64.frame_of data) df
  /\ StronglySorted Binary64.row_le df
  /\ result
     = map (Binary64.variation_at df)
           (filter (fun i =>
                      (threshold_pct <? abs (Binary64.percent_change_at vs i))%float)
                   (seq 1 (length data - 1)))
  /\ (forall r,
         In r result <->
         exists i, (1 <= i < length data)%nat
                   /\ (threshold_pct
                       <? abs (Binary64.percent_change_at vs i))%float = true
                   /\ r = Binary64.variation_at df i)
  /\ StronglySorted date_le (map Binary64.var_fecha result).
Proof.
  intros _. cbv zeta. rewrite binary64_find_extreme_variations_rows.
  split; [apply binary64_sort_values_perm |].
  split; [apply binary64_sort_values_sorted |].
  split; [reflexivity |]. split.
  - intros r. rewrite in_map_iff. split.
    + intros (i & <- & Hi). apply filter_In in Hi. destruct Hi as [Hi Hp].
      apply in_seq in Hi. exists i. repeat split; try lia. exact Hp.
    + intros (i & Hi & Hp & ->). exists i. split; [reflexivity |].
      apply filter_In. split; [apply in_seq; lia | exact Hp].
  - rewrite map_map.
    apply (StronglySorted_map (fun i j => i < j < length data)%nat).
    + intros i j Hij. simpl.
      apply (sorted_nth Binary64.row_le); [apply binary64_sort_values_sorted |].
      rewrite binary64_sorted_frame_length. exact Hij.
    + apply StronglySorted_filter.
      destruct data as [| o data']; [constructor |].
      apply seq_increasing. simpl. lia.
Qed.

(** The comparison is the one the code makes on rounded values: from 4000
    to 4040 the computed change is 1.0000000000000009 percent, which
    exceeds a threshold of 1; the fall from 4040 to 3990 is found through
    its absolute value.  The input is given out of date order. *)
Lemma extreme_variations_binary64_witness :
  Binary64.find_extreme_variations
    [Binary64.obs 2024 1 3 3990; Binary64.obs 2024 1 1 4000;
     Binary64.obs 2024 1 2 4040] 1
  = [Binary64.mkTRMVariation (mkDate 2024 1 2) 4040 0x1.0000000000004p+0;
     Binary64.mkTRMVariation (mkDate 2024 1 3) 3990 (-0x1.3cd4e930288e4p+0)].
Proof.
  destruct (extreme_variations_binary64
              [Binary64.obs 2024 1 3 3990; Binary64.obs 2024 1 1 4000;
               Binary64.obs 2024 1 2 4040] 1 ltac:(repeat constructor))
    as (_ & _ & Hresult & _).
  etransitivity; [exact Hresult | reflexivity].
Defined.

(** The inequality is strict: a change equal to the threshold is not
    reported. *)
Example extreme_variations_strict :
  Binary64.percent_change_at [100; 125]%float 1 = 25%float
  /\ Binary64.find_extreme_variations
       [Binary64.obs 2024 1 1 100; Binary64.obs 2024 1 2 125] 25
     = [].
Proof. split; reflexivity. Qed.
